(** * DataLoggerMqttSubTopics: a shallow embedding of the sketch

    The sketch [DataLoggerMqttSubTopics.ino] reads a TCS34725 light sensor
    once per send interval and publishes every field of the reading to its
    own MQTT subtopic, reconnecting to the WiFi network and to the broker
    when needed.

    The program variables of the sketch are the record [Globals]; the
    peripherals it talks to (WiFi module, realtime clock, MQTT client,
    sensor, serial port) are the record [Env]; every call that reaches a
    peripheral is logged as an [event].  The functions of the sketch are
    written in a small monad that threads the state, collects the events
    and can stall (the two retry loops of [connectToNetwork] need not
    terminate). *)

From Stdlib Require Import ZArith List String Ascii Bool Lia.
From Stdlib Require Strings.Byte.
Import ListNotations.
Local Open Scope string_scope.
Local Open Scope list_scope.
Local Open Scope Z_scope.

(* ===================================================================== *)
(** ** Machine integers of the SAMD21 *)
(* ===================================================================== *)

Module Int.

(** [unsigned long] and [uint32_t]: arithmetic modulo 2^32. *)
Definition wrap32 (z : Z) : Z := z mod 2 ^ 32.

(** [uint16_t]: arithmetic modulo 2^16. *)
Definition wrap16 (z : Z) : Z := z mod 2 ^ 16.

End Int.

(* ===================================================================== *)
(** ** Arduino [String] conversions *)
(* ===================================================================== *)

Module Str.

(** Digit [d] of a base up to 16, lower case as [utoa] and [itoa] print it. *)
Definition digitChar (d : Z) : ascii :=
  if d <? 10 then ascii_of_nat (48 + Z.to_nat d)
  else ascii_of_nat (87 + Z.to_nat d).

(** The digit loop of [utoa]: least significant digit first, each one put
    in front of the digits already produced; it stops when the quotient
    is 0.  A 32-bit value has at most 32 digits in any base. *)
Fixpoint utoa_loop (fuel : nat) (n base : Z) (acc : string) : string :=
  match fuel with
  | O => acc
  | S fuel' =>
      let acc' := String (digitChar (n mod base)) acc in
      if n / base =? 0 then acc' else utoa_loop fuel' (n / base) base acc'
  end.

Definition utoa (n base : Z) : string := utoa_loop 32 n base "".

(** [String(value, HEX)] for an unsigned value. *)
Definition ofUnsignedHex (n : Z) : string := utoa n 16.

(** [String(value)] for an unsigned value: decimal. *)
Definition ofUnsigned (n : Z) : string := utoa n 10.

(** [String(value)] and [Serial.println(value)] for a signed value. *)
Definition ofSigned (n : Z) : string :=
  if n <? 0 then ("-" ++ utoa (- n) 10)%string else utoa n 10.

Definition isLowerHex (c : ascii) : bool :=
  let n := N_of_ascii c in
  ((48 <=? n) && (n <=? 57) || (97 <=? n) && (n <=? 102))%N.

Fixpoint allChars (p : ascii -> bool) (s : string) : bool :=
  match s with
  | EmptyString => true
  | String c s' => p c && allChars p s'
  end.

End Str.

(* ===================================================================== *)
(** ** Events: the calls that reach a peripheral *)
(* ===================================================================== *)

Inductive event : Type :=
| SerialBegin (baud : Z)
| SerialPrint (s : string)
| SerialPrintln (s : string)
| Delay (ms : Z)
| RtcBegin
| RtcSetEpoch (epoch : Z)
| WiFiMacAddress
| WiFiBegin (ssid pass : string)
| WiFiGetTime
| MqttSetId (id : string)
| MqttSetUsernamePassword (user pass : string)
| MqttSetKeepAliveInterval (ms : Z)
| MqttBeginWill (topic : string) (size : Z) (retain : bool) (qos : Z)
| MqttEndWill
| MqttConnect (host : string) (port : Z)
| MqttSubscribe (topic : string)
| MqttBeginMessage (topic : string)
| MqttPrint (payload : string)
| MqttEndMessage
| TcsGetRawData.

(** The events of one publish: [beginMessage], [print], [endMessage]. *)
Definition publishOf (fullTopic val : string) : list event :=
  [MqttBeginMessage fullTopic; MqttPrint val; MqttEndMessage].

(** The topics of the messages begun in a run of events, in order. *)
Fixpoint topicsOf (evs : list event) : list string :=
  match evs with
  | [] => []
  | MqttBeginMessage t :: evs' => t :: topicsOf evs'
  | _ :: evs' => topicsOf evs'
  end.

Definition isEndMessage (e : event) : bool :=
  match e with MqttEndMessage => true | _ => false end.

Definition isConnect (e : event) : bool :=
  match e with MqttConnect _ _ => true | _ => false end.

Definition isSensorRead (e : event) : bool :=
  match e with TcsGetRawData => true | _ => false end.

(** An event that belongs to a publish: any of the three calls of
    [sendMessage].  ([MqttPrint] is also used once by [setup], for the will
    payload.) *)
Definition isPublishEvent (e : event) : bool :=
  match e with
  | MqttBeginMessage _ | MqttPrint _ | MqttEndMessage => true
  | _ => false
  end.

(** How many publishes were completed in a run of events. *)
Definition publishCount (evs : list event) : Z :=
  Z.of_nat (List.length (filter isEndMessage evs)).

(** How many times the broker connection was attempted. *)
Definition connectCount (evs : list event) : Z :=
  Z.of_nat (List.length (filter isConnect evs)).

(* ===================================================================== *)
(** ** The state: program variables and peripherals *)
(* ===================================================================== *)

(** The global variables that the sketch assigns. *)
Record Globals : Type := mkGlobals {
  addressString : string;      (* String addressString = ""            *)
  clientID : string;           (* String clientID = "light-client-"    *)
  startTime : Z;               (* unsigned long startTime = 0          *)
  lastSendTime : Z;            (* long lastSendTime = 0                *)
  readingCount : Z             (* unsigned long readingCount = 0       *)
}.

(** The peripherals.  The outcome of the k-th association attempt, of the
    k-th time request and of the k-th broker connection attempt are given by
    the environment ([beginOutcome], [netTime], [connectOutcome]); the
    counters say how many of each were made so far.  The realtime clock is a
    register holding epoch seconds: [setEpoch] writes it, [getEpoch] and
    [getMinutes] read it. *)
Record Env : Type := mkEnv {
  serialOpen : bool;               (* (bool) Serial                       *)
  macAddress : list Byte.byte;     (* what WiFi.macAddress(mac) stores    *)
  wifiUp : bool;                   (* WiFi.status() == WL_CONNECTED       *)
  beginOutcome : nat -> bool;      (* link state after the k-th begin     *)
  attempts : nat;
  netTime : nat -> Z;              (* result of the k-th WiFi.getTime()   *)
  fetches : nat;
  localIP : string;                (* WiFi.localIP(), as it prints        *)
  rssi : Z;                        (* WiFi.RSSI()                         *)
  rtcEpoch : Z;                    (* the clock register                  *)
  brokerUp : bool;                 (* mqttClient.connected()              *)
  connectOutcome : nat -> bool;    (* result of the k-th connect()        *)
  connects : nat;
  connectError : Z;                (* mqttClient.connectError()           *)
  rawData : Z * Z * Z * Z          (* r, g, b, c of tcs.getRawData        *)
}.

Record State : Type := mkState {
  globals : Globals;
  env : Env
}.

Definition set_addressString (v : string) (g : Globals) : Globals :=
  mkGlobals v (clientID g) (startTime g) (lastSendTime g) (readingCount g).
Definition set_clientID (v : string) (g : Globals) : Globals :=
  mkGlobals (addressString g) v (startTime g) (lastSendTime g) (readingCount g).
Definition set_startTime (v : Z) (g : Globals) : Globals :=
  mkGlobals (addressString g) (clientID g) v (lastSendTime g) (readingCount g).
Definition set_lastSendTime (v : Z) (g : Globals) : Globals :=
  mkGlobals (addressString g) (clientID g) (startTime g) v (readingCount g).
Definition set_readingCount (v : Z) (g : Globals) : Globals :=
  mkGlobals (addressString g) (clientID g) (startTime g) (lastSendTime g) v.

Definition set_wifi (up : bool) (n : nat) (e : Env) : Env :=
  mkEnv (serialOpen e) (macAddress e) up (beginOutcome e) n
        (netTime e) (fetches e) (localIP e) (rssi e) (rtcEpoch e)
        (brokerUp e) (connectOutcome e) (connects e) (connectError e)
        (rawData e).
Definition set_fetches (n : nat) (e : Env) : Env :=
  mkEnv (serialOpen e) (macAddress e) (wifiUp e) (beginOutcome e) (attempts e)
        (netTime e) n (localIP e) (rssi e) (rtcEpoch e)
        (brokerUp e) (connectOutcome e) (connects e) (connectError e)
        (rawData e).
Definition set_rtcEpoch (v : Z) (e : Env) : Env :=
  mkEnv (serialOpen e) (macAddress e) (wifiUp e) (beginOutcome e) (attempts e)
        (netTime e) (fetches e) (localIP e) (rssi e) v
        (brokerUp e) (connectOutcome e) (connects e) (connectError e)
        (rawData e).
Definition set_broker (up : bool) (n : nat) (e : Env) : Env :=
  mkEnv (serialOpen e) (macAddress e) (wifiUp e) (beginOutcome e) (attempts e)
        (netTime e) (fetches e) (localIP e) (rssi e) (rtcEpoch e)
        up (connectOutcome e) n (connectError e)
        (rawData e).

(* ===================================================================== *)
(** ** The monad: state, emitted events, and stalling *)
(* ===================================================================== *)

(** A computation takes the state and either stalls ([None]: a retry loop
    that was given too few rounds) or returns a value, the new state and the
    events it emitted, oldest first. *)
Definition M (A : Type) : Type := State -> option (A * State * list event).

Definition ret {A} (a : A) : M A := fun s => Some (a, s, []).

Definition bind {A B} (m : M A) (k : A -> M B) : M B :=
  fun s =>
    match m s with
    | None => None
    | Some (a, s1, evs1) =>
        match k a s1 with
        | None => None
        | Some (b, s2, evs2) => Some (b, s2, evs1 ++ evs2)
        end
    end.

Declare Scope sketch_scope.
Delimit Scope sketch_scope with sketch.
Notation "x <- m ;; k" := (bind m (fun x => k))
  (at level 61, m at next level, right associativity) : sketch_scope.
Notation "m ;; k" := (bind m (fun _ => k))
  (at level 61, right associativity) : sketch_scope.
Local Open Scope sketch_scope.

Definition stall {A} : M A := fun _ => None.
Definition emit (e : event) : M unit := fun s => Some (tt, s, [e]).
Definition getG {A} (f : Globals -> A) : M A := fun s => Some (f (globals s), s, []).
Definition getE {A} (f : Env -> A) : M A := fun s => Some (f (env s), s, []).
Definition modG (f : Globals -> Globals) : M unit :=
  fun s => Some (tt, mkState (f (globals s)) (env s), []).
Definition modE (f : Env -> Env) : M unit :=
  fun s => Some (tt, mkState (globals s) (f (env s)), []).
Definition when (b : bool) (m : M unit) : M unit := if b then m else ret tt.

(* ===================================================================== *)
(** ** Constants of the sketch *)
(* ===================================================================== *)

Definition broker : string := "public.cloud.shiftr.io".
Definition port : Z := 8883.
Definition topic : string := "light-readings".
Definition willTopic : string := "light-readings/will".
Definition location : string := "home".

(** Interval between requests, in minutes. *)
Definition sendInterval : Z := 1.
(** Time before the broker should release the will, in ms. *)
Definition keepAliveInterval : Z := sendInterval * 2 * 60 * 1000.

(** The globals as their initialisers leave them. *)
Definition initialGlobals : Globals :=
  mkGlobals "" "light-client-" 0 0 0.

Definition boot (e : Env) : State := mkState initialGlobals e.

(* ===================================================================== *)
(** ** Peripheral calls *)
(* ===================================================================== *)

(** [rtc.getEpoch()]: the clock register, a [uint32_t]. *)
Definition rtc_getEpoch : M Z := getE (fun e => Int.wrap32 (rtcEpoch e)).

(** Minute of the hour of an epoch. *)
Definition minuteOf (epoch : Z) : Z := (epoch / 60) mod 60.

(** [rtc.getMinutes()]. *)
Definition rtc_getMinutes : M Z :=
  getE (fun e => minuteOf (Int.wrap32 (rtcEpoch e))).

(** [rtc.setEpoch(epoch)]. *)
Definition rtc_setEpoch (epoch : Z) : M unit :=
  emit (RtcSetEpoch epoch) ;; modE (set_rtcEpoch epoch).

(** [WiFi.begin(ssid, pass)]: one association attempt; the link is then in
    the state the environment gives for this attempt. *)
Definition WiFi_begin (ssid pass : string) : M unit :=
  emit (WiFiBegin ssid pass) ;;
  modE (fun e => set_wifi (beginOutcome e (attempts e)) (S (attempts e)) e).

(** [WiFi.getTime()]: an [unsigned long], 0 when no time was obtained. *)
Definition WiFi_getTime : M Z :=
  emit WiFiGetTime ;;
  t <- getE (fun e => Int.wrap32 (netTime e (fetches e))) ;;
  modE (fun e => set_fetches (S (fetches e)) e) ;;
  ret t.

(** [mqttClient.connect(host, port)]: one connection attempt. *)
Definition mqtt_connect (host : string) (p : Z) : M bool :=
  emit (MqttConnect host p) ;;
  ok <- getE (fun e => connectOutcome e (connects e)) ;;
  modE (fun e => set_broker ok (S (connects e)) e) ;;
  ret ok.

(** [abs(current - last) >= interval], the test that gates a reading. *)
Definition intervalElapsed (current last interval : Z) : bool :=
  Z.abs (current - last) >=? interval.

(** Environment changes between two loop iterations. *)
Definition setClock (epoch : Z) : Env -> Env := set_rtcEpoch epoch.
Definition atMinute (m : Z) : Env -> Env := setClock (60 * m).

(** The gate the sketch is compared with (it is not part of the sketch): a
    send decision taken on the whole minutes that really passed between the
    epoch of the last send and the current epoch. *)
Definition elapsedMinutes (lastEpoch nowEpoch : Z) : Z :=
  (nowEpoch - lastEpoch) / 60.
Definition elapsedGate (lastEpoch nowEpoch interval : Z) : bool :=
  elapsedMinutes lastEpoch nowEpoch >=? interval.

(** Sample vendor formulas and a sample environment: link and broker up,
    every attempt succeeds, the clock at 0. *)
Definition sampleColorTemperature (r g b c : Z) : Z := 4000.
Definition sampleLux (r g b : Z) : Z := 100.
Definition sampleMac : list Byte.byte :=
  [Byte.x0a; Byte.x1b; Byte.x2c; Byte.x3d; Byte.x4e; Byte.xf5].
Definition sampleTimes : list Z := [1700000000; 1700003600].
Definition sampleEnv : Env :=
  mkEnv true sampleMac true (fun _ => true) 0
        (fun k => nth k sampleTimes 1700007200) 0
        "192.168.0.7" (-60) 0 true (fun _ => true) 0 (-2) (10, 20, 30, 60).

(* ===================================================================== *)
(** ** The sketch *)
(* ===================================================================== *)

Module Sketch.
Section Parameters.

(** From [arduino_secrets.h], which is not part of the sources. *)
Variables SECRET_SSID SECRET_PASS SECRET_MQTT_USER SECRET_MQTT_PASS : string.

(** The formulas of the Adafruit_TCS34725 library. *)
Variable calculateColorTemperature_dn40 : Z -> Z -> Z -> Z -> Z.
Variable calculateLux : Z -> Z -> Z -> Z.

(** One round of the loop of [setup] over the MAC bytes:
    [if (mac[i] < 16) addressString += "0";
     addressString += String(mac[i], HEX);] *)
Definition appendMacByte (b : Byte.byte) : M unit :=
  let v := Z.of_N (Byte.to_N b) in
  when (v <? 16)
    (modG (fun g => set_addressString (addressString g ++ "0")%string g)) ;;
  modG (fun g =>
    set_addressString (addressString g ++ Str.ofUnsignedHex v)%string g).

(** [for (int i = 5; i >= 0; i--)]: [macLoop (S i)] runs the rounds
    [i], [i-1], ..., [0]. *)
Fixpoint macLoop (n : nat) (mac : list Byte.byte) : M unit :=
  match n with
  | O => ret tt
  | S i => appendMacByte (nth i mac Byte.x00) ;; macLoop i mac
  end.

Definition setup : M unit :=
  emit (SerialBegin 9600) ;;
  open <- getE serialOpen ;;
  when (negb open) (emit (Delay 3000)) ;;
  emit RtcBegin ;;
  emit WiFiMacAddress ;;
  mac <- getE macAddress ;;
  macLoop 6 mac ;;
  let willPayload := "sensor died" in
  let willRetain := true in
  let willQos := 1 in
  modG (fun g => set_clientID (clientID g ++ location)%string g) ;;
  id <- getG clientID ;;
  emit (MqttSetId id) ;;
  emit (MqttSetUsernamePassword SECRET_MQTT_USER SECRET_MQTT_PASS) ;;
  emit (MqttSetKeepAliveInterval keepAliveInterval) ;;
  emit (MqttBeginWill willTopic (Z.of_nat (String.length willPayload))
                      willRetain willQos) ;;
  emit (MqttPrint willPayload) ;;
  emit MqttEndWill.

Definition sendMessage (subTopic val : string) : M unit :=
  let thisTopic := (topic ++ "/")%string in
  let thisTopic := (thisTopic ++ subTopic)%string in
  emit (MqttBeginMessage thisTopic) ;;
  emit (MqttPrint val) ;;
  emit MqttEndMessage.

Definition readSensor : M unit :=
  emit TcsGetRawData ;;
  raw <- getE rawData ;;
  let '(r, g, b, c) := raw in
  let colorTemp := Int.wrap16 (calculateColorTemperature_dn40 r g b c) in
  let lux := Int.wrap16 (calculateLux r g b) in
  addr <- getG addressString ;;
  sendMessage "uid" addr ;;
  sendMessage "location" location ;;
  now <- rtc_getEpoch ;;
  sendMessage "timeStamp" (Str.ofUnsigned now) ;;
  sendMessage "lux" (Str.ofSigned lux) ;;
  sendMessage "ct" (Str.ofSigned colorTemp) ;;
  now' <- rtc_getEpoch ;;
  start <- getG startTime ;;
  sendMessage "uptime" (Str.ofUnsigned (Int.wrap32 (now' - start))) ;;
  count <- getG readingCount ;;
  sendMessage "readingCount" (Str.ofUnsigned count).

(** [while (WiFi.status() != WL_CONNECTED) { ... }], with at most [fuel]
    rounds. *)
Fixpoint associate (fuel : nat) : M unit :=
  up <- getE wifiUp ;;
  if up then ret tt
  else
    match fuel with
    | O => stall
    | S fuel' =>
        emit (SerialPrintln ("Attempting to connect to: " ++ SECRET_SSID)%string) ;;
        WiFi_begin SECRET_SSID SECRET_PASS ;;
        emit (Delay 2000) ;;
        associate fuel'
    end.

(** [do { ... } while (epoch == 0)], with at most [fuel] repetitions after
    the first round. *)
Fixpoint fetchTime (fuel : nat) : M Z :=
  emit (SerialPrintln "Attempting to get network time") ;;
  epoch <- WiFi_getTime ;;
  emit (Delay 2000) ;;
  if epoch =? 0 then
    match fuel with
    | O => stall
    | S fuel' => fetchTime fuel'
    end
  else ret epoch.

Definition connectToNetwork (fuel : nat) : M unit :=
  associate fuel ;;
  emit (SerialPrintln "connected.") ;;
  epoch <- fetchTime fuel ;;
  rtc_setEpoch epoch ;;
  start <- getG startTime ;;
  (if start =? 0
   then (now <- rtc_getEpoch ;; modG (set_startTime now))
   else ret tt) ;;
  ip <- getE localIP ;;
  emit (SerialPrint ip) ;;
  emit (SerialPrint "  Signal Strength: ") ;;
  strength <- getE rssi ;;
  emit (SerialPrintln (Str.ofSigned strength)).

Definition connectToBroker : M bool :=
  ok <- mqtt_connect broker port ;;
  if negb ok then
    emit (SerialPrint "MOTT connection failed. Error no: ") ;;
    err <- getE connectError ;;
    emit (SerialPrintln (Str.ofSigned err)) ;;
    ret false
  else
    emit (MqttSubscribe topic) ;;
    ret true.

(** The gated part of [loop]: read, count, note the minute. *)
Definition readAndCount : M unit :=
  readSensor ;;
  modG (fun g => set_readingCount (Int.wrap32 (readingCount g + 1)) g) ;;
  minutes <- rtc_getMinutes ;;
  modG (set_lastSendTime minutes).

Definition loop (fuel : nat) : M unit :=
  up <- getE wifiUp ;;
  when (negb up) (connectToNetwork fuel) ;;
  connected <- getE brokerUp ;;
  if negb connected then
    emit (SerialPrintln "reconnecting to broker") ;;
    _ <- connectToBroker ;;
    ret tt
  else
    minutes <- rtc_getMinutes ;;
    last <- getG lastSendTime ;;
    if intervalElapsed minutes last sendInterval then readAndCount
    else ret tt.

(** [loop] forever: before each iteration the environment changes as the
    next element of [ds] says. *)
Fixpoint run (fuel : nat) (ds : list (Env -> Env)) : M unit :=
  match ds with
  | [] => ret tt
  | d :: ds' => modE d ;; loop fuel ;; run fuel ds'
  end.

(** The same run, keeping for every iteration whether it read the
    sensor. *)
Fixpoint firings (fuel : nat) (ds : list (Env -> Env)) (s : State)
  : option (list bool) :=
  match ds with
  | [] => Some []
  | d :: ds' =>
      match (modE d ;; loop fuel) s with
      | None => None
      | Some (_, s', evs) =>
          match firings fuel ds' s' with
          | None => None
          | Some fs => Some (existsb isSensorRead evs :: fs)
          end
      end
  end.

(** Repeated resynchronisation: [connectToNetwork] called once after each
    environment change of [ds]; the result lists [startTime] after each
    call. *)
Fixpoint resyncs (fuel : nat) (ds : list (Env -> Env)) (s : State)
  : option (list Z) :=
  match ds with
  | [] => Some []
  | d :: ds' =>
      match (modE d ;; connectToNetwork fuel) s with
      | None => None
      | Some (_, s', _) =>
          match resyncs fuel ds' s' with
          | None => None
          | Some ts => Some (startTime (globals s') :: ts)
          end
      end
  end.

(* ------------------------------------------------------------------- *)
(** *** Summaries used in the statements below *)
(* ------------------------------------------------------------------- *)

(** What [readSensor] emits in state [s]. *)
Definition readSensorEvents (s : State) : list event :=
  let '(r, g, b, c) := rawData (env s) in
  let now := Int.wrap32 (rtcEpoch (env s)) in
  TcsGetRawData
  :: publishOf "light-readings/uid" (addressString (globals s))
  ++ publishOf "light-readings/location" "home"
  ++ publishOf "light-readings/timeStamp" (Str.ofUnsigned now)
  ++ publishOf "light-readings/lux"
       (Str.ofSigned (Int.wrap16 (calculateLux r g b)))
  ++ publishOf "light-readings/ct"
       (Str.ofSigned (Int.wrap16 (calculateColorTemperature_dn40 r g b c)))
  ++ publishOf "light-readings/uptime"
       (Str.ofUnsigned (Int.wrap32 (now - startTime (globals s))))
  ++ publishOf "light-readings/readingCount"
       (Str.ofUnsigned (readingCount (globals s))).

(** The current minute as [loop] reads it. *)
Definition minuteNow (s : State) : Z := minuteOf (Int.wrap32 (rtcEpoch (env s))).

(** The branch of [loop] taken when the broker client is not connected. *)
Definition brokerBranch (s : State) : State * list event :=
  let ok := connectOutcome (env s) (connects (env s)) in
  (mkState (globals s) (set_broker ok (S (connects (env s))) (env s)),
   SerialPrintln "reconnecting to broker"
   :: MqttConnect broker port
   :: (if ok then [MqttSubscribe topic]
       else [SerialPrint "MOTT connection failed. Error no: ";
             SerialPrintln (Str.ofSigned (connectError (env s)))])).

(** The branch of [loop] taken when the broker client is connected. *)
Definition gatedBranch (s : State) : State * list event :=
  if intervalElapsed (minuteNow s) (lastSendTime (globals s)) sendInterval
  then
    (mkState
       (set_lastSendTime (minuteNow s)
          (set_readingCount (Int.wrap32 (readingCount (globals s) + 1))
             (globals s)))
       (env s),
     readSensorEvents s)
  else (s, []).

Definition afterNetwork (s : State) : State * list event :=
  if brokerUp (env s) then gatedBranch s else brokerBranch s.

(** No event of a publish, no broker connection attempt, no sensor read. *)
Definition quiet (evs : list event) : bool :=
  forallb (fun e => negb (isPublishEvent e) && negb (isConnect e)
                    && negb (isSensorRead e)) evs.

(** The events of one round of each retry loop. *)
Definition associateRound : list event :=
  [SerialPrintln ("Attempting to connect to: " ++ SECRET_SSID)%string;
   WiFiBegin SECRET_SSID SECRET_PASS; Delay 2000].

Definition fetchRound : list event :=
  [SerialPrintln "Attempting to get network time"; WiFiGetTime; Delay 2000].

(** The state [connectToNetwork] leaves when it fetched [epoch]. *)
Definition synced (epoch : Z) (s : State) : State :=
  mkState
    (if startTime (globals s) =? 0
     then set_startTime (Int.wrap32 epoch) (globals s)
     else globals s)
    (set_rtcEpoch epoch (env s)).

Definition syncReport (epoch : Z) (s : State) : list event :=
  [RtcSetEpoch epoch; SerialPrint (localIP (env s));
   SerialPrint "  Signal Strength: ";
   SerialPrintln (Str.ofSigned (rssi (env s)))].

(** The network guard at the head of [loop]. *)
Definition networkGuard (fuel : nat) : M unit :=
  fun s => if wifiUp (env s) then Some (tt, s, []) else connectToNetwork fuel s.

End Parameters.
End Sketch.
Import Sketch.

(** A byte as [setup] renders it: ["0"] in front when it is below 16. *)
Definition padHex (b : Byte.byte) : string :=
  let v := Z.of_N (Byte.to_N b) in
  if v <? 16 then ("0" ++ Str.ofUnsignedHex v)%string else Str.ofUnsignedHex v.

(** The renderings of a list of bytes, one after the other. *)
Fixpoint hexOf (bs : list Byte.byte) : string :=
  match bs with
  | [] => ""
  | b :: bs' => (padHex b ++ hexOf bs')%string
  end.

(** Clock settings that make every iteration send: minute 1, minute 0,
    minute 1, ... when [odd], and minute 0, minute 1, ... otherwise. *)
Fixpoint ticktock (n : nat) (odd : bool) : list (Env -> Env) :=
  match n with
  | O => []
  | S n' => atMinute (if odd then 1 else 0) :: ticktock n' (negb odd)
  end.

(** Sample instances. *)
Definition sampleLoop : nat -> M unit :=
  loop "ssid" "pass" sampleColorTemperature sampleLux.
Definition sampleRun : nat -> list (Env -> Env) -> M unit :=
  run "ssid" "pass" sampleColorTemperature sampleLux.
Definition sampleSetup : M unit := setup "user" "secret".
Definition sampleReadSensor : M unit :=
  readSensor sampleColorTemperature sampleLux.
Definition sampleConnectToNetwork : nat -> M unit :=
  connectToNetwork "ssid" "pass".
Definition sampleResyncs
  : nat -> list (Env -> Env) -> State -> option (list Z) :=
  resyncs "ssid" "pass".
Definition sampleFirings
  : nat -> list (Env -> Env) -> State -> option (list bool) :=
  firings "ssid" "pass" sampleColorTemperature sampleLux.

(** The link drops. *)
Definition dropLink : Env -> Env := fun e => set_wifi false (attempts e) e.

(** The sample environment with the link down, with the broker connection
    down (the next attempt succeeds), and with a broker that refuses. *)
Definition linkDownEnv : Env := set_wifi false 0 sampleEnv.
Definition brokerDownEnv : Env := set_broker false 0 sampleEnv.
Definition refusingEnv : Env :=
  mkEnv true sampleMac true (fun _ => true) 0
        (fun k => nth k sampleTimes 1700007200) 0
        "192.168.0.7" (-60) 0 false (fun _ => false) 0 (-2) (10, 20, 30, 60).

(* ===================================================================== *)
(** ** Measures on event runs and on environment changes *)
(* ===================================================================== *)

Definition isWiFiBegin (e : event) : bool :=
  match e with WiFiBegin _ _ => true | _ => false end.

Definition isGetTime (e : event) : bool :=
  match e with WiFiGetTime => true | _ => false end.

Definition isSetEpoch (e : event) : bool :=
  match e with RtcSetEpoch _ => true | _ => false end.

Definition isSubscribe (e : event) : bool :=
  match e with MqttSubscribe _ => true | _ => false end.

(** How many events of a run satisfy [p]. *)
Definition countOf (p : event -> bool) (evs : list event) : Z :=
  Z.of_nat (List.length (filter p evs)).

(** The milliseconds a run of events spends in [delay]. *)
Fixpoint delayTotal (evs : list event) : Z :=
  match evs with
  | [] => 0
  | Delay ms :: evs' => ms + delayTotal evs'
  | _ :: evs' => delayTotal evs'
  end.

(** A run of events made of whole publishes only: [beginMessage], [print],
    [endMessage], again and again. *)
Fixpoint publishTriples (evs : list event) : bool :=
  match evs with
  | [] => true
  | MqttBeginMessage _ :: MqttPrint _ :: MqttEndMessage :: evs' =>
      publishTriples evs'
  | _ => false
  end.

(** An environment change after which the link is up. *)
Definition keepsLinkUp (d : Env -> Env) : Prop :=
  forall e, wifiUp (d e) = true.

(** An environment change after which the link is up and the clock is in
    minute [m] of the hour. *)
Definition holdsMinute (m : Z) (d : Env -> Env) : Prop :=
  forall e, wifiUp (d e) = true /\ minuteOf (Int.wrap32 (rtcEpoch (d e))) = m.

(** A broker that is not connected and refuses every connection attempt,
    and an environment change that leaves the link up and such a broker as
    it is. *)
Definition brokerRefuses (e : Env) : Prop :=
  brokerUp e = false /\ forall k, connectOutcome e k = false.

Definition keepsRefusing (d : Env -> Env) : Prop :=
  forall e, brokerRefuses e -> wifiUp (d e) = true /\ brokerRefuses (d e).

(** The value of a lower-case hexadecimal digit, and the byte that two of
    them spell (used to tell device identities apart). *)
Definition hexDigitValue (c : ascii) : N :=
  let n := N_of_ascii c in
  (if n <? 58 then n - 48 else n - 87)%N.

Definition unhexByte (s : string) : option Byte.byte :=
  match s with
  | String hi (String lo EmptyString) =>
      Byte.of_N (16 * hexDigitValue hi + hexDigitValue lo)%N
  | _ => None
  end.

(** More sample environments: the link is up and the clock set to minute
    [m]; the link is down, the first two association attempts fail and the
    first two time requests return 0. *)
Definition linkUpAtMinute (m : Z) : Env -> Env :=
  fun e => set_wifi true (attempts e) (atMinute m e).
Definition stubbornEnv : Env :=
  mkEnv true sampleMac false (fun k => Nat.leb 2 k) 0
        (fun k => nth k [0; 0; 1700000000] 1700003600) 0
        "192.168.0.7" (-60) 0 true (fun _ => true) 0 (-2) (10, 20, 30, 60).
(** Sample states: connected at minute 5 with the last send at minute 0;
    and set up and synchronised, 90 s after the first synchronisation. *)
Definition dueState : State := mkState initialGlobals (atMinute 5 sampleEnv).
Definition syncedState : State :=
  mkState (mkGlobals "f54e3d2c1b0a" "light-client-home" 1700000000 0 3)
          (setClock 1700000090 sampleEnv).
Definition otherMacEnv : Env :=
  mkEnv true [Byte.x0a; Byte.x1b; Byte.x2c; Byte.x3d; Byte.x4e; Byte.xf6]
        true (fun _ => true) 0 (fun k => nth k sampleTimes 1700007200) 0
        "192.168.0.7" (-60) 0 true (fun _ => true) 0 (-2) (10, 20, 30, 60).

(* ===================================================================== *)
(** * Facts *)
(* ===================================================================== *)

Module IntFacts.
Import Int.

Lemma wrap32_range z : 0 <= wrap32 z < 2 ^ 32.
Proof. unfold wrap32. apply Z.mod_pos_bound. reflexivity. Qed.

Lemma wrap32_small z : 0 <= z < 2 ^ 32 -> wrap32 z = z.
Proof. intros H. unfold wrap32. apply Z.mod_small. exact H. Qed.

Lemma wrap32_add_l z k : wrap32 (wrap32 z + k) = wrap32 (z + k).
Proof. unfold wrap32. apply Zplus_mod_idemp_l. Qed.

End IntFacts.

Module StrFacts.
Import Str.

Lemma length_append (s t : string) :
  String.length (s ++ t) = (String.length s + String.length t)%nat.
Proof. induction s as [|c s IH]; simpl; [reflexivity | now rewrite IH]. Qed.

Lemma allChars_append p (s t : string) :
  allChars p (s ++ t) = allChars p s && allChars p t.
Proof.
  induction s as [|c s IH]; simpl; [reflexivity |].
  now rewrite IH, andb_assoc.
Qed.

Lemma append_assoc (s t u : string) : ((s ++ t) ++ u = s ++ (t ++ u))%string.
Proof. induction s as [|c s IH]; simpl; [reflexivity | now rewrite IH]. Qed.

Lemma append_nil_r (s : string) : (s ++ "")%string = s.
Proof. induction s as [|c s IH]; simpl; [reflexivity | now rewrite IH]. Qed.

End StrFacts.

Example ofUnsignedHex_171 : Str.ofUnsignedHex 171 = "ab".
Proof. reflexivity. Qed.

Example ofUnsigned_4000 : Str.ofUnsigned 4000 = "4000".
Proof. reflexivity. Qed.

Example ofSigned_neg2 : Str.ofSigned (-2) = "-2".
Proof. reflexivity. Qed.

Example sampleSetup_address :
  option_map (fun r => addressString (globals (snd (fst r))))
             (sampleSetup (boot sampleEnv)) = Some "f54e3d2c1b0a".
Proof. reflexivity. Qed.

(* ===================================================================== *)
(** ** The monad *)
(* ===================================================================== *)

Lemma bind_Some {A B} (m : M A) (k : A -> M B) s b s2 evs :
  bind m k s = Some (b, s2, evs) ->
  exists a s1 evs1 evs2,
    m s = Some (a, s1, evs1) /\ k a s1 = Some (b, s2, evs2) /\
    evs = evs1 ++ evs2.
Proof.
  unfold bind. destruct (m s) as [[[a s1] evs1]|]; [|discriminate].
  destruct (k a s1) as [[[b' s2'] evs2]|] eqn:Hk; [|discriminate].
  intros H. injection H as Hb Hs Hevs. subst.
  exists a, s1, evs1, evs2. repeat split. exact Hk.
Qed.

Lemma bind_eq {A B} (m : M A) (k : A -> M B) s a s1 evs1 :
  m s = Some (a, s1, evs1) ->
  bind m k s =
  match k a s1 with
  | None => None
  | Some (b, s2, evs2) => Some (b, s2, evs1 ++ evs2)
  end.
Proof. intros H. unfold bind. now rewrite H. Qed.

Lemma state_eta (s : State) : mkState (globals s) (env s) = s.
Proof. now destruct s. Qed.

Lemma set_wifi_same e : wifiUp e = true -> set_wifi true (attempts e) e = e.
Proof. destruct e; simpl; intros ->; reflexivity. Qed.

(** Counting over a concatenation. *)
Lemma publishCount_app evs1 evs2 :
  publishCount (evs1 ++ evs2) = publishCount evs1 + publishCount evs2.
Proof.
  unfold publishCount. rewrite filter_app, length_app. lia.
Qed.

Lemma connectCount_app evs1 evs2 :
  connectCount (evs1 ++ evs2) = connectCount evs1 + connectCount evs2.
Proof.
  unfold connectCount. rewrite filter_app, length_app. lia.
Qed.

Lemma publishCount_nonneg evs : 0 <= publishCount evs.
Proof. unfold publishCount. lia. Qed.

Lemma quiet_app evs1 evs2 : quiet (evs1 ++ evs2) = quiet evs1 && quiet evs2.
Proof. unfold quiet. apply forallb_app. Qed.

Lemma quiet_no_publish evs : quiet evs = true -> filter isPublishEvent evs = [].
Proof.
  induction evs as [|e evs IH]; simpl; [reflexivity|].
  intros H. apply andb_prop in H as [He H].
  apply andb_prop in He as [He _]. apply andb_prop in He as [He _].
  apply negb_true_iff in He. rewrite He. now apply IH.
Qed.

Lemma quiet_no_connect evs : quiet evs = true -> connectCount evs = 0.
Proof.
  unfold connectCount.
  induction evs as [|e evs IH]; simpl; [reflexivity|].
  intros H. apply andb_prop in H as [He H].
  apply andb_prop in He as [He _]. apply andb_prop in He as [_ He].
  apply negb_true_iff in He. rewrite He. now apply IH.
Qed.

Lemma quiet_no_read evs : quiet evs = true -> existsb isSensorRead evs = false.
Proof.
  induction evs as [|e evs IH]; simpl; [reflexivity|].
  intros H. apply andb_prop in H as [He H].
  apply andb_prop in He as [_ He].
  apply negb_true_iff in He. rewrite He. now apply IH.
Qed.

Lemma quiet_publishCount evs : quiet evs = true -> publishCount evs = 0.
Proof.
  intros H. unfold publishCount.
  replace (filter isEndMessage evs) with (@nil event); [reflexivity|].
  induction evs as [|e evs IH]; [reflexivity|].
  simpl in H. apply andb_prop in H as [He H].
  destruct e; try discriminate He; simpl; now apply IH.
Qed.

(* ===================================================================== *)
(** ** The device identity *)
(* ===================================================================== *)

Lemma padHex_two_digits (b : Byte.byte) :
  let v := Z.of_N (Byte.to_N b) in
  padHex b = String (Str.digitChar (v / 16)) (String (Str.digitChar (v mod 16)) "").
Proof. destruct b; reflexivity. Qed.

Lemma padHex_length (b : Byte.byte) : String.length (padHex b) = 2%nat.
Proof. destruct b; reflexivity. Qed.

Lemma padHex_lower (b : Byte.byte) : Str.allChars Str.isLowerHex (padHex b) = true.
Proof. destruct b; reflexivity. Qed.

Lemma hexOf_length bs : String.length (hexOf bs) = (2 * List.length bs)%nat.
Proof.
  induction bs as [|b bs IH]; simpl hexOf; [reflexivity|].
  rewrite StrFacts.length_append, padHex_length, IH. simpl List.length. lia.
Qed.

Lemma hexOf_lower bs : Str.allChars Str.isLowerHex (hexOf bs) = true.
Proof.
  induction bs as [|b bs IH]; simpl hexOf; [reflexivity|].
  now rewrite StrFacts.allChars_append, padHex_lower, IH.
Qed.

(* ===================================================================== *)
(** ** The functions of the sketch *)
(* ===================================================================== *)

Section SketchFacts.

Variables SECRET_SSID SECRET_PASS SECRET_MQTT_USER SECRET_MQTT_PASS : string.
Variable calculateColorTemperature_dn40 : Z -> Z -> Z -> Z -> Z.
Variable calculateLux : Z -> Z -> Z -> Z.

Local Abbreviation setup := (Sketch.setup SECRET_MQTT_USER SECRET_MQTT_PASS).
Local Abbreviation readSensor :=
    (readSensor calculateColorTemperature_dn40 calculateLux).
Local Abbreviation readSensorEvents :=
    (readSensorEvents calculateColorTemperature_dn40 calculateLux).
Local Abbreviation readAndCount :=
    (readAndCount calculateColorTemperature_dn40 calculateLux).
Local Abbreviation gatedBranch :=
    (gatedBranch calculateColorTemperature_dn40 calculateLux).
Local Abbreviation afterNetwork :=
    (afterNetwork calculateColorTemperature_dn40 calculateLux).
Local Abbreviation associate := (Sketch.associate SECRET_SSID SECRET_PASS).
Local Abbreviation connectToNetwork := (Sketch.connectToNetwork SECRET_SSID SECRET_PASS).
Local Abbreviation loop :=
    (loop SECRET_SSID SECRET_PASS calculateColorTemperature_dn40 calculateLux).
Local Abbreviation run :=
    (run SECRET_SSID SECRET_PASS calculateColorTemperature_dn40 calculateLux).
Local Abbreviation firings :=
    (firings SECRET_SSID SECRET_PASS calculateColorTemperature_dn40 calculateLux).
Local Abbreviation resyncs := (Sketch.resyncs SECRET_SSID SECRET_PASS).
Local Abbreviation associateRound :=
  (Sketch.associateRound SECRET_SSID SECRET_PASS).
Local Abbreviation networkGuard := (Sketch.networkGuard SECRET_SSID SECRET_PASS).

Lemma sendMessage_eq subTopic val s :
  sendMessage subTopic val s =
  Some (tt, s, publishOf (topic ++ "/" ++ subTopic)%string val).
Proof. reflexivity. Qed.

Lemma readSensor_eq s : readSensor s = Some (tt, s, readSensorEvents s).
Proof.
  unfold Sketch.readSensor, Sketch.readSensorEvents.
  unfold bind at 1. unfold emit at 1. unfold bind at 1. unfold getE at 1.
  destruct (rawData (env s)) as [[[r g] b] c].
  reflexivity.
Qed.

Lemma readSensorEvents_publishCount s : publishCount (readSensorEvents s) = 7.
Proof.
  unfold Sketch.readSensorEvents.
  destruct (rawData (env s)) as [[[r g] b] c]. reflexivity.
Qed.

Lemma readSensorEvents_read s : existsb isSensorRead (readSensorEvents s) = true.
Proof.
  unfold Sketch.readSensorEvents.
  destruct (rawData (env s)) as [[[r g] b] c]. reflexivity.
Qed.

Lemma connectToBroker_eq s :
  connectToBroker s =
  let ok := connectOutcome (env s) (connects (env s)) in
  Some (ok,
        mkState (globals s) (set_broker ok (S (connects (env s))) (env s)),
        MqttConnect broker port
        :: (if ok then [MqttSubscribe topic]
            else [SerialPrint "MOTT connection failed. Error no: ";
                  SerialPrintln (Str.ofSigned (connectError (env s)))])).
Proof.
  unfold connectToBroker, mqtt_connect, bind, emit, getE, modE, ret.
  cbn [env globals].
  destruct (connectOutcome (env s) (connects (env s))); reflexivity.
Qed.

Lemma readAndCount_eq s :
  readAndCount s =
  Some (tt,
        mkState
          (set_lastSendTime (minuteNow s)
             (set_readingCount (Int.wrap32 (readingCount (globals s) + 1))
                (globals s)))
          (env s),
        readSensorEvents s).
Proof.
  unfold Sketch.readAndCount.
  rewrite (bind_eq _ _ _ _ _ _ (readSensor_eq s)).
  unfold bind, modG, rtc_getMinutes, getE, minuteNow. cbn [env globals].
  now rewrite !app_nil_r.
Qed.

(** [loop] is the network guard followed by one of the two branches. *)
Lemma loop_eq fuel s :
  loop fuel s =
  match (if wifiUp (env s) then Some (tt, s, []) else connectToNetwork fuel s) with
  | None => None
  | Some (_, s1, evs1) =>
      Some (tt, fst (afterNetwork s1), evs1 ++ snd (afterNetwork s1))
  end.
Proof.
  unfold Sketch.loop. unfold bind at 1. unfold getE at 1.
  unfold bind at 1.
  assert (Hbody : forall s1,
    (connected <- getE brokerUp ;;
     (if negb connected
      then emit (SerialPrintln "reconnecting to broker") ;;
           _ <- connectToBroker ;; ret tt
      else minutes <- rtc_getMinutes ;;
           last <- getG lastSendTime ;;
           (if intervalElapsed minutes last sendInterval
            then readAndCount else ret tt))) s1
    = Some (tt, fst (afterNetwork s1), snd (afterNetwork s1))).
  { intros s1. unfold bind at 1. unfold getE at 1.
    unfold Sketch.afterNetwork.
    destruct (brokerUp (env s1)); cbn [negb].
    - unfold bind, rtc_getMinutes, getE, getG, Sketch.gatedBranch.
      fold (minuteNow s1).
      destruct (intervalElapsed (minuteNow s1) (lastSendTime (globals s1))
                  sendInterval).
      + rewrite readAndCount_eq. reflexivity.
      + reflexivity.
    - unfold bind at 1. unfold emit at 1.
      unfold bind at 1. rewrite connectToBroker_eq.
      cbv zeta. unfold brokerBranch, ret. cbn [fst snd app].
      now rewrite app_nil_r. }
  destruct (wifiUp (env s)); cbn [negb when].
  - unfold ret at 1. rewrite Hbody. rewrite app_nil_l. reflexivity.
  - destruct (Sketch.connectToNetwork SECRET_SSID SECRET_PASS fuel s)
      as [[[u s1] evs1]|]; [|reflexivity].
    rewrite Hbody. reflexivity.
Qed.

(* ------------------------------------------------------------------- *)
(** *** The network connector *)
(* ------------------------------------------------------------------- *)

Lemma associate_unfold fuel s :
  associate fuel s =
  if wifiUp (env s) then Some (tt, s, [])
  else
    match fuel with
    | O => None
    | S fuel' =>
        match associate fuel'
                (mkState (globals s)
                   (set_wifi (beginOutcome (env s) (attempts (env s)))
                             (S (attempts (env s))) (env s))) with
        | None => None
        | Some (u, s', evs) => Some (u, s', associateRound ++ evs)
        end
    end.
Proof.
  destruct fuel as [|fuel']; cbn [Sketch.associate];
    unfold bind at 1; unfold getE at 1;
    destruct (wifiUp (env s)); try reflexivity.
  unfold bind at 1. unfold emit at 1.
  unfold bind at 1. unfold WiFi_begin, bind at 1, emit at 1, modE at 1.
  unfold bind at 1. unfold emit at 1.
  destruct (Sketch.associate _ _ fuel' _) as [[[u s'] evs]|]; reflexivity.
Qed.

Lemma fetchTime_unfold fuel s :
  fetchTime fuel s =
  let t := Int.wrap32 (netTime (env s) (fetches (env s))) in
  let s1 := mkState (globals s) (set_fetches (S (fetches (env s))) (env s)) in
  if t =? 0 then
    match fuel with
    | O => None
    | S fuel' =>
        match fetchTime fuel' s1 with
        | None => None
        | Some (epoch, s', evs) => Some (epoch, s', fetchRound ++ evs)
        end
    end
  else Some (t, s1, fetchRound).
Proof.
  cbv zeta.
  destruct fuel as [|fuel']; cbn [fetchTime];
    unfold bind at 1; unfold emit at 1;
    unfold bind at 1; unfold WiFi_getTime, bind, emit, getE, modE, ret;
    cbn [env globals];
    destruct (Int.wrap32 (netTime (env s) (fetches (env s))) =? 0);
    try reflexivity.
  destruct (fetchTime fuel' _) as [[[epoch s'] evs]|]; reflexivity.
Qed.

(** If the association loop returns, the link is up, and nothing but the
    link state and the attempt counter has changed. *)
Lemma associate_spec fuel : forall s u s' evs,
  associate fuel s = Some (u, s', evs) ->
  exists n, s' = mkState (globals s) (set_wifi true n (env s)) /\
            quiet evs = true.
Proof.
  induction fuel as [|fuel' IH]; intros s u s' evs H;
    rewrite associate_unfold in H;
    destruct (wifiUp (env s)) eqn:Hup.
  - injection H as _ <- <-. exists (attempts (env s)).
    rewrite set_wifi_same by exact Hup. now rewrite state_eta.
  - discriminate.
  - injection H as _ <- <-. exists (attempts (env s)).
    rewrite set_wifi_same by exact Hup. now rewrite state_eta.
  - destruct (associate fuel' _) as [[[u1 s1] evs1]|] eqn:Hrec; [|discriminate].
    injection H as _ <- <-.
    apply IH in Hrec as (n & -> & Hq). exists n. split; [reflexivity|].
    exact Hq.
Qed.

(** If the time loop returns, it returns a nonzero time of the network, and
    nothing but the request counter has changed. *)
Lemma fetchTime_spec fuel : forall s epoch s' evs,
  fetchTime fuel s = Some (epoch, s', evs) ->
  exists j,
    epoch = Int.wrap32 (netTime (env s) (fetches (env s) + j)%nat) /\
    epoch <> 0 /\
    s' = mkState (globals s) (set_fetches (S (fetches (env s) + j)) (env s)) /\
    quiet evs = true.
Proof.
  induction fuel as [|fuel' IH]; intros s epoch s' evs H;
    rewrite fetchTime_unfold in H; cbv zeta in H;
    destruct (Int.wrap32 (netTime (env s) (fetches (env s))) =? 0) eqn:Hz.
  - discriminate.
  - injection H as <- <- <-. exists 0%nat. rewrite Nat.add_0_r.
    apply Z.eqb_neq in Hz. now repeat split.
  - destruct (fetchTime fuel' _) as [[[e1 s1] evs1]|] eqn:Hrec; [|discriminate].
    injection H as <- <- <-.
    apply IH in Hrec as (j & He & Hnz & -> & Hq). cbn [env globals] in *.
    exists (S j). destruct (env s); cbn in *.
    rewrite Nat.add_succ_r. repeat split; assumption.
  - injection H as <- <- <-. exists 0%nat. rewrite Nat.add_0_r.
    apply Z.eqb_neq in Hz. now repeat split.
Qed.

Lemma connectToNetwork_eq fuel s :
  connectToNetwork fuel s =
  match associate fuel s with
  | None => None
  | Some (_, s1, evs1) =>
      match fetchTime fuel s1 with
      | None => None
      | Some (epoch, s2, evs2) =>
          Some (tt, synced epoch s2,
                evs1 ++ SerialPrintln "connected." :: evs2 ++ syncReport epoch s2)
      end
  end.
Proof.
  unfold Sketch.connectToNetwork. unfold bind at 1.
  destruct (associate fuel s) as [[[u s1] evs1]|]; [|reflexivity].
  unfold bind at 1. unfold emit at 1. unfold bind at 1.
  destruct (fetchTime fuel s1) as [[[epoch s2] evs2]|]; [|reflexivity].
  unfold synced, syncReport, rtc_setEpoch, rtc_getEpoch, bind, emit, modE,
    modG, getG, getE, ret.
  cbn [env globals].
  destruct (startTime (globals s2) =? 0); cbn [app]; rewrite ?app_nil_r;
    destruct s2 as [g2 e2]; destruct e2; reflexivity.
Qed.

(** What a completed [connectToNetwork] has done: the link is up, the clock
    holds a nonzero time that the network delivered, and [startTime] took
    that time only if it was 0. *)
Lemma connectToNetwork_spec fuel s u s' evs :
  connectToNetwork fuel s = Some (u, s', evs) ->
  exists n j,
    let epoch := Int.wrap32 (netTime (env s) (fetches (env s) + j)%nat) in
    epoch <> 0 /\
    globals s' =
      (if startTime (globals s) =? 0
       then set_startTime epoch (globals s) else globals s) /\
    env s' =
      set_rtcEpoch epoch
        (set_fetches (S (fetches (env s) + j)) (set_wifi true n (env s))) /\
    quiet evs = true /\
    In (RtcSetEpoch epoch) evs.
Proof.
  rewrite connectToNetwork_eq.
  destruct (associate fuel s) as [[[u1 s1] evs1]|] eqn:Ha; [|discriminate].
  destruct (fetchTime fuel s1) as [[[epoch s2] evs2]|] eqn:Hf; [|discriminate].
  intros H. injection H as _ <- <-.
  apply associate_spec in Ha as (n & -> & Hq1).
  apply fetchTime_spec in Hf as (j & He & Hnz & -> & Hq2).
  cbn [env globals] in *.
  assert (Hn : netTime (set_wifi true n (env s)) = netTime (env s))
    by reflexivity.
  assert (Hfe : fetches (set_wifi true n (env s)) = fetches (env s))
    by reflexivity.
  rewrite Hn, Hfe in He. rewrite Hfe.
  exists n, j. cbv zeta. rewrite <- He.
  split; [exact Hnz|]. unfold synced. cbn [env globals].
  split; [|split; [reflexivity|split]].
  - rewrite (IntFacts.wrap32_small epoch); [reflexivity|].
    rewrite He. apply IntFacts.wrap32_range.
  - rewrite quiet_app, Hq1. cbn [andb].
    change (SerialPrintln "connected." :: evs2 ++ syncReport epoch
              (mkState (globals s)
                 (set_fetches (S (fetches (env s) + j))
                    (set_wifi true n (env s)))))
      with ([SerialPrintln "connected."] ++ evs2 ++ syncReport epoch
              (mkState (globals s)
                 (set_fetches (S (fetches (env s) + j))
                    (set_wifi true n (env s))))).
    rewrite !quiet_app, Hq2. reflexivity.
  - apply in_or_app. right. right. apply in_or_app. right. left. reflexivity.
Qed.

(** The association loop returns as soon as an attempt brings the link up. *)
Lemma associate_terminates k : forall s fuel,
  beginOutcome (env s) (attempts (env s) + k)%nat = true ->
  (k < fuel)%nat ->
  exists n evs,
    associate fuel s =
    Some (tt, mkState (globals s) (set_wifi true n (env s)), evs).
Proof.
  induction k as [|k IH]; intros s fuel Hk Hfuel;
    rewrite associate_unfold;
    destruct (wifiUp (env s)) eqn:Hup;
    try (exists (attempts (env s)), [];
         rewrite set_wifi_same by exact Hup; now rewrite state_eta).
  - destruct fuel as [|fuel']; [lia|].
    rewrite Nat.add_0_r in Hk. rewrite Hk.
    rewrite associate_unfold. cbn [env wifiUp set_wifi].
    eexists. eexists. reflexivity.
  - destruct fuel as [|fuel']; [lia|].
    destruct (IH (mkState (globals s)
                    (set_wifi (beginOutcome (env s) (attempts (env s)))
                       (S (attempts (env s))) (env s))) fuel')
      as (n & evs & Hrec).
    + cbn [env beginOutcome attempts set_wifi].
      now rewrite Nat.add_succ_r in Hk.
    + lia.
    + rewrite Hrec. cbn [env globals]. eexists. eexists. reflexivity.
Qed.

(** The time loop returns as soon as a request delivers a nonzero time. *)
Lemma fetchTime_terminates j : forall s fuel,
  Int.wrap32 (netTime (env s) (fetches (env s) + j)%nat) <> 0 ->
  (j <= fuel)%nat ->
  exists epoch s' evs, fetchTime fuel s = Some (epoch, s', evs).
Proof.
  induction j as [|j IH]; intros s fuel Hj Hfuel;
    rewrite fetchTime_unfold; cbv zeta;
    destruct (Int.wrap32 (netTime (env s) (fetches (env s))) =? 0) eqn:Hz;
    try (eexists; eexists; eexists; reflexivity).
  - rewrite Nat.add_0_r in Hj. apply Z.eqb_eq in Hz. contradiction.
  - destruct fuel as [|fuel']; [lia|].
    destruct (IH (mkState (globals s)
                    (set_fetches (S (fetches (env s))) (env s))) fuel')
      as (epoch & s' & evs & Hrec).
    + cbn [env netTime fetches set_fetches].
      now rewrite Nat.add_succ_r in Hj.
    + lia.
    + rewrite Hrec. eexists. eexists. eexists. reflexivity.
Qed.

(** More rounds do not change the result of a loop that returned. *)
Lemma connectToNetwork_terminates s k j :
  beginOutcome (env s) (attempts (env s) + k)%nat = true ->
  Int.wrap32 (netTime (env s) (fetches (env s) + j)%nat) <> 0 ->
  forall fuel, (Nat.max (S k) j <= fuel)%nat ->
  exists s' evs, connectToNetwork fuel s = Some (tt, s', evs).
Proof.
  intros Hk Hj fuel Hfuel. rewrite connectToNetwork_eq.
  destruct (associate_terminates k s fuel Hk) as (n & evs1 & ->); [lia|].
  destruct (fetchTime_terminates j
              (mkState (globals s) (set_wifi true n (env s))) fuel)
    as (epoch & s2 & evs2 & ->); [exact Hj | lia |].
  eexists. eexists. reflexivity.
Qed.

(* ------------------------------------------------------------------- *)
(** *** [setup] and the device identity *)
(* ------------------------------------------------------------------- *)

Lemma firstn_snoc {A} (d : A) : forall (l : list A) (i : nat),
  (i < List.length l)%nat -> firstn (S i) l = firstn i l ++ [nth i l d].
Proof.
  induction l as [|x l IH]; intros i Hi; simpl in Hi; [lia|].
  destruct i as [|i]; [reflexivity|].
  cbn [firstn nth app]. f_equal. rewrite <- IH by lia. reflexivity.
Qed.

Lemma set_addressString_same g : set_addressString (addressString g) g = g.
Proof. now destruct g. Qed.

Lemma appendMacByte_eq b s :
  appendMacByte b s =
  Some (tt,
        mkState (set_addressString (addressString (globals s) ++ padHex b)%string
                   (globals s))
                (env s),
        []).
Proof.
  unfold appendMacByte, padHex, when.
  destruct (Z.of_N (Byte.to_N b) <? 16);
    unfold bind, modG, ret; cbn [env globals addressString set_addressString app].
  - now rewrite StrFacts.append_assoc.
  - reflexivity.
Qed.

Lemma macLoop_eq n : forall mac s,
  (n <= List.length mac)%nat ->
  macLoop n mac s =
  Some (tt,
        mkState
          (set_addressString
             (addressString (globals s) ++ hexOf (rev (firstn n mac)))%string
             (globals s))
          (env s),
        []).
Proof.
  induction n as [|i IH]; intros mac s Hn.
  - cbn [macLoop firstn rev hexOf]. unfold ret.
    now rewrite StrFacts.append_nil_r, set_addressString_same, state_eta.
  - cbn [macLoop]. rewrite (bind_eq _ _ _ _ _ _ (appendMacByte_eq _ s)).
    rewrite IH by lia. cbn [env globals addressString set_addressString app].
    rewrite (firstn_snoc Byte.x00) by lia.
    rewrite rev_app_distr. cbn [rev app hexOf].
    now rewrite StrFacts.append_assoc.
Qed.

(** [setup] on a state whose interface has a 6-byte address. *)
Lemma setup_spec s :
  List.length (macAddress (env s)) = 6%nat ->
  exists evs,
    setup s =
    Some (tt,
          mkState
            (set_clientID (clientID (globals s) ++ location)%string
               (set_addressString
                  (addressString (globals s)
                   ++ hexOf (rev (macAddress (env s))))%string
                  (globals s)))
            (env s),
          evs).
Proof.
  intros Hlen. unfold Sketch.setup.
  unfold bind at 1. unfold emit at 1.
  unfold bind at 1. unfold getE at 1.
  unfold bind at 1.
  assert (Hw : when (negb (serialOpen (env s))) (emit (Delay 3000)) s =
               Some (tt, s, if serialOpen (env s) then [] else [Delay 3000])).
  { destruct (serialOpen (env s)); reflexivity. }
  rewrite Hw.
  unfold bind at 1. unfold emit at 1.
  unfold bind at 1. unfold emit at 1.
  unfold bind at 1. unfold getE at 1.
  unfold bind at 1. rewrite macLoop_eq by lia.
  replace (firstn 6 (macAddress (env s))) with (macAddress (env s))
    by (symmetry; apply firstn_all2; lia).
  eexists. reflexivity.
Qed.

(** Nothing after [setup] assigns [addressString]. *)
Lemma afterNetwork_addressString s :
  addressString (globals (fst (afterNetwork s))) = addressString (globals s).
Proof.
  unfold Sketch.afterNetwork, Sketch.gatedBranch, brokerBranch.
  destruct (brokerUp (env s)); [|reflexivity].
  now destruct (intervalElapsed _ _ _).
Qed.

Lemma loop_addressString fuel s u s' evs :
  loop fuel s = Some (u, s', evs) ->
  addressString (globals s') = addressString (globals s).
Proof.
  rewrite loop_eq. destruct (wifiUp (env s)).
  - intros H. injection H as _ <- _. apply afterNetwork_addressString.
  - destruct (connectToNetwork fuel s) as [[[u1 s1] evs1]|] eqn:Hc;
      [|discriminate].
    intros H. injection H as _ <- _.
    rewrite afterNetwork_addressString.
    apply connectToNetwork_spec in Hc as (n & j & _ & Hg & _).
    rewrite Hg. now destruct (startTime (globals s) =? 0).
Qed.

Lemma run_addressString fuel ds : forall s u s' evs,
  run fuel ds s = Some (u, s', evs) ->
  addressString (globals s') = addressString (globals s).
Proof.
  induction ds as [|d ds IH]; intros s u s' evs H; cbn [Sketch.run] in H.
  - injection H as _ <- _. reflexivity.
  - apply bind_Some in H as (u1 & s1 & e1 & e2 & H1 & H2 & _).
    injection H1 as _ <- _.
    apply bind_Some in H2 as (u2 & s2 & e3 & e4 & H2 & H3 & _).
    apply IH in H3. apply loop_addressString in H2.
    rewrite H3, H2. reflexivity.
Qed.

(* ------------------------------------------------------------------- *)
(** *** One iteration of [loop] *)
(* ------------------------------------------------------------------- *)

Lemma loop_inv fuel s u s' evs :
  loop fuel s = Some (u, s', evs) ->
  exists s1 evs1,
    networkGuard fuel s = Some (tt, s1, evs1) /\
    s' = fst (afterNetwork s1) /\
    evs = evs1 ++ snd (afterNetwork s1).
Proof.
  rewrite loop_eq. fold (networkGuard fuel s).
  destruct (networkGuard fuel s) as [[[[] s1] evs1]|]; [|discriminate].
  intros H. injection H as _ <- <-. now exists s1, evs1.
Qed.

(** The guard touches only the link, the time requests, the clock and, when
    it is still 0, [startTime]. *)
Lemma networkGuard_spec fuel s u s1 evs1 :
  networkGuard fuel s = Some (u, s1, evs1) ->
  quiet evs1 = true /\
  wifiUp (env s1) = true /\
  brokerUp (env s1) = brokerUp (env s) /\
  connectOutcome (env s1) = connectOutcome (env s) /\
  connects (env s1) = connects (env s) /\
  readingCount (globals s1) = readingCount (globals s) /\
  lastSendTime (globals s1) = lastSendTime (globals s) /\
  (startTime (globals s) <> 0 ->
   startTime (globals s1) = startTime (globals s)) /\
  (wifiUp (env s) = true -> s1 = s /\ evs1 = []).
Proof.
  unfold networkGuard. destruct (wifiUp (env s)) eqn:Hup.
  - intros H. injection H as _ <- <-. repeat split; auto.
  - intros H. apply connectToNetwork_spec in H as (n & j & _ & Hg & He & Hq & _).
    rewrite Hg, He. cbn [wifiUp brokerUp connectOutcome connects set_rtcEpoch
                         set_fetches set_wifi].
    repeat split; auto; try discriminate;
      destruct (startTime (globals s) =? 0) eqn:Hz; try reflexivity.
    intros Hnz. apply Z.eqb_eq in Hz. contradiction.
Qed.

Lemma brokerBranch_quiet_publish s :
  filter isPublishEvent (snd (brokerBranch s)) = [] /\
  publishCount (snd (brokerBranch s)) = 0 /\
  existsb isSensorRead (snd (brokerBranch s)) = false /\
  connectCount (snd (brokerBranch s)) = 1.
Proof.
  unfold brokerBranch. cbn [snd].
  destruct (connectOutcome (env s) (connects (env s))); repeat split.
Qed.

(** An iteration either leaves the counter alone and publishes nothing, or
    adds one to it and completes the seven publishes of one reading. *)
Lemma loop_count fuel s u s' evs :
  loop fuel s = Some (u, s', evs) ->
  (readingCount (globals s') = readingCount (globals s) /\
   publishCount evs = 0) \/
  (readingCount (globals s') = Int.wrap32 (readingCount (globals s) + 1) /\
   publishCount evs = 7).
Proof.
  intros H. apply loop_inv in H as (s1 & evs1 & Hg & -> & ->).
  apply networkGuard_spec in Hg as (Hq & _ & _ & _ & _ & Hrc & _).
  rewrite publishCount_app, (quiet_publishCount _ Hq).
  unfold Sketch.afterNetwork. destruct (brokerUp (env s1)).
  - unfold Sketch.gatedBranch.
    destruct (intervalElapsed _ _ _); cbn [fst snd globals readingCount
      set_lastSendTime set_readingCount].
    + right. rewrite readSensorEvents_publishCount, Hrc. split; reflexivity.
    + left. split; [exact Hrc | reflexivity].
  - left. destruct (brokerBranch_quiet_publish s1) as (_ & -> & _).
    split; [exact Hrc | reflexivity].
Qed.

(* ------------------------------------------------------------------- *)
(** *** Runs of [loop] *)
(* ------------------------------------------------------------------- *)

Lemma run_cons fuel d ds s :
  run fuel (d :: ds) s =
  match loop fuel (mkState (globals s) (d (env s))) with
  | None => None
  | Some (_, s1, evs1) =>
      match run fuel ds s1 with
      | None => None
      | Some (u, s2, evs2) => Some (u, s2, evs1 ++ evs2)
      end
  end.
Proof.
  cbn [Sketch.run]. unfold bind at 1. unfold modE at 1.
  unfold bind at 1.
  destruct (loop fuel _) as [[[u1 s1] evs1]|]; [|reflexivity].
  destruct (run fuel ds s1) as [[[u2 s2] evs2]|]; reflexivity.
Qed.

Lemma run_app fuel ds1 : forall ds2 s u s2 evs,
  run fuel (ds1 ++ ds2) s = Some (u, s2, evs) ->
  exists s1 evs1 evs2,
    run fuel ds1 s = Some (tt, s1, evs1) /\
    run fuel ds2 s1 = Some (tt, s2, evs2) /\
    evs = evs1 ++ evs2.
Proof.
  induction ds1 as [|d ds1 IH]; intros ds2 s u s2 evs H.
  - destruct u. exists s, [], evs. now repeat split.
  - cbn [app] in H. rewrite run_cons in H. rewrite run_cons.
    destruct (loop fuel _) as [[[u1 s1] evs1]|]; [|discriminate].
    destruct (run fuel (ds1 ++ ds2) s1) as [[[u2 s2'] evs2]|] eqn:Hr;
      [|discriminate].
    injection H as _ <- <-.
    apply IH in Hr as (sm & ea & eb & -> & Hb & ->).
    exists sm, (evs1 ++ ea), eb. repeat split; [exact Hb|].
    now rewrite app_assoc.
Qed.

(** Over a run, the counter has advanced by the number of completed
    readings, modulo 2^32. *)
Lemma run_count fuel ds : forall s u s' evs,
  0 <= readingCount (globals s) < 2 ^ 32 ->
  run fuel ds s = Some (u, s', evs) ->
  exists N,
    0 <= N <= Z.of_nat (List.length ds) /\
    publishCount evs = 7 * N /\
    readingCount (globals s') = Int.wrap32 (readingCount (globals s) + N).
Proof.
  induction ds as [|d ds IH]; intros s u s' evs Hrange H.
  - injection H as _ <- <-. exists 0. repeat split; try reflexivity.
    rewrite Z.add_0_r. symmetry. now apply IntFacts.wrap32_small.
  - rewrite run_cons in H.
    destruct (loop fuel _) as [[[u1 s1] evs1]|] eqn:Hl; [|discriminate].
    destruct (run fuel ds s1) as [[[u2 s2] evs2]|] eqn:Hr; [|discriminate].
    injection H as _ <- <-.
    apply loop_count in Hl. cbn [globals] in Hl.
    rewrite publishCount_app. cbn [List.length].
    destruct Hl as [[Hrc Hp]|[Hrc Hp]].
    + apply IH in Hr as (N & HN & HpN & HrcN); [|now rewrite Hrc].
      exists N. rewrite Hp, HpN, HrcN, Hrc. repeat split; lia.
    + apply IH in Hr as (N & HN & HpN & HrcN);
        [|rewrite Hrc; apply IntFacts.wrap32_range].
      exists (1 + N). rewrite Hp, HpN, HrcN, Hrc.
      rewrite IntFacts.wrap32_add_l, Z.add_assoc.
      repeat split; lia.
Qed.

Lemma loop_connected fuel s :
  wifiUp (env s) = true ->
  brokerUp (env s) = true ->
  loop fuel s = Some (tt, fst (gatedBranch s), snd (gatedBranch s)).
Proof.
  intros Hw Hb. rewrite loop_eq, Hw. unfold Sketch.afterNetwork.
  now rewrite Hb.
Qed.

Lemma minuteOf_atMinute m : 0 <= m < 60 -> minuteOf (Int.wrap32 (60 * m)) = m.
Proof.
  intros Hm. rewrite IntFacts.wrap32_small by lia.
  unfold minuteOf. rewrite Z.mul_comm, Z.div_mul by lia.
  apply Z.mod_small. lia.
Qed.

(** One connected iteration that starts with the clock at minute [m]. *)
Lemma firings_connected fuel m ds s :
  0 <= m < 60 ->
  wifiUp (env s) = true ->
  brokerUp (env s) = true ->
  firings fuel (atMinute m :: ds) s =
  if intervalElapsed m (lastSendTime (globals s)) sendInterval
  then option_map (cons true)
         (firings fuel ds
            (mkState
               (set_lastSendTime m
                  (set_readingCount (Int.wrap32 (readingCount (globals s) + 1))
                     (globals s)))
               (atMinute m (env s))))
  else option_map (cons false)
         (firings fuel ds (mkState (globals s) (atMinute m (env s)))).
Proof.
  intros Hm Hw Hb. cbn [Sketch.firings].
  unfold bind at 1. unfold modE at 1.
  rewrite loop_connected by assumption.
  unfold Sketch.gatedBranch, minuteNow. cbn [env globals].
  change (rtcEpoch (atMinute m (env s))) with (60 * m).
  rewrite minuteOf_atMinute by exact Hm.
  destruct (intervalElapsed m (lastSendTime (globals s)) sendInterval);
    cbn [fst snd app].
  - rewrite readSensorEvents_read.
    destruct (firings fuel ds _); reflexivity.
  - cbn [existsb]. destruct (firings fuel ds _); reflexivity.
Qed.

(** [loop] can stall only in [connectToNetwork]: it returns whenever the
    network guard does, so always when the link is up, and with enough
    rounds when an association attempt and a time request succeed. *)
Lemma loop_returns_after_guard fuel s u s1 evs1 :
  networkGuard fuel s = Some (u, s1, evs1) ->
  exists s' evs, loop fuel s = Some (tt, s', evs).
Proof.
  intros H. rewrite loop_eq. fold (networkGuard fuel s). rewrite H.
  eexists. eexists. reflexivity.
Qed.

Lemma loop_returns s :
  wifiUp (env s) = true \/
  ((exists k, beginOutcome (env s) (attempts (env s) + k)%nat = true) /\
   (exists j, Int.wrap32 (netTime (env s) (fetches (env s) + j)%nat) <> 0)) ->
  exists rounds,
    forall fuel, (rounds <= fuel)%nat ->
    exists s' evs, loop fuel s = Some (tt, s', evs).
Proof.
  intros [Hup | [(k & Hk) (j & Hj)]].
  - exists 0%nat. intros fuel _.
    apply (loop_returns_after_guard fuel s tt s []).
    unfold Sketch.networkGuard. now rewrite Hup.
  - exists (Nat.max (S k) j). intros fuel Hfuel.
    destruct (wifiUp (env s)) eqn:Hup.
    + apply (loop_returns_after_guard fuel s tt s []).
      unfold Sketch.networkGuard. now rewrite Hup.
    + destruct (connectToNetwork_terminates s k j Hk Hj fuel Hfuel)
        as (s1 & evs1 & Hrun).
      apply (loop_returns_after_guard fuel s tt s1 evs1).
      unfold Sketch.networkGuard. now rewrite Hup.
Qed.

(* ===================================================================== *)
(** ** The claims *)
(* ===================================================================== *)

(** C1, as amended: in every loop iteration where the broker client reports
    not connected, [connectToBroker] is invoked exactly once and the
    iteration then ends: nothing is read or published and neither
    [readingCount] nor [lastSendTime] changes, whether the connection
    succeeded or not.  After a failure the client is still not connected.
    After a success the topic has been subscribed and the client is
    connected; the interval check, and the sensor read and publish it gates,
    are made by the next iteration ([gatedBranch]), not by this one. *)
Theorem loop_broker_down_connects_once_and_ends fuel s u s' evs :
  loop fuel s = Some (u, s', evs) ->
  brokerUp (env s) = false ->
  connectCount evs = 1 /\
  filter isPublishEvent evs = [] /\
  existsb isSensorRead evs = false /\
  readingCount (globals s') = readingCount (globals s) /\
  lastSendTime (globals s') = lastSendTime (globals s) /\
  brokerUp (env s') = connectOutcome (env s) (connects (env s)) /\
  (connectOutcome (env s) (connects (env s)) = true ->
   In (MqttSubscribe topic) evs /\
   forall fuel',
     loop fuel' s' = Some (tt, fst (gatedBranch s'), snd (gatedBranch s'))).
Proof.
  intros H Hdown. apply loop_inv in H as (s1 & evs1 & Hg & -> & ->).
  apply networkGuard_spec in Hg
    as (Hq & Hw & Hb & Hco & Hcn & Hrc & Hls & _ & _).
  unfold Sketch.afterNetwork. rewrite Hb, Hdown.
  destruct (brokerBranch_quiet_publish s1) as (Hp & _ & Hr & Hc).
  rewrite connectCount_app, (quiet_no_connect _ Hq), Hc.
  rewrite filter_app, (quiet_no_publish _ Hq), Hp.
  rewrite existsb_app, (quiet_no_read _ Hq), Hr.
  rewrite <- Hco, <- Hcn.
  unfold brokerBranch. cbn [fst snd globals env brokerUp set_broker].
  repeat split; auto.
  - rewrite H. apply in_or_app. right. right. right. left. reflexivity.
  - intros fuel'. apply loop_connected; cbn [env wifiUp brokerUp set_broker];
      assumption.
Qed.

(** C3: with [sendInterval] = 1 and [lastSendTime] initially 0, the
    connected loop body run over the clock minutes 0, 0, 1, 2 reads the
    sensor in the iterations at minute 1 and at minute 2, and in neither
    iteration at minute 0. *)
Theorem readings_over_minutes_0_0_1_2 fuel s :
  wifiUp (env s) = true ->
  brokerUp (env s) = true ->
  lastSendTime (globals s) = 0 ->
  sendInterval = 1 /\
  firings fuel (map atMinute [0; 0; 1; 2]) s = Some [false; false; true; true].
Proof.
  intros Hw Hb Hl. split; [reflexivity|]. cbn [map].
  rewrite firings_connected by (assumption || lia).
  rewrite Hl. cbn [intervalElapsed]. change (intervalElapsed 0 0 sendInterval) with false.
  cbv iota.
  rewrite firings_connected by (assumption || lia). cbn [globals].
  rewrite Hl. change (intervalElapsed 0 0 sendInterval) with false. cbv iota.
  rewrite firings_connected by (assumption || lia). cbn [globals].
  rewrite Hl. change (intervalElapsed 1 0 sendInterval) with true. cbv iota.
  rewrite firings_connected by (assumption || lia).
  cbn [globals lastSendTime set_lastSendTime].
  change (intervalElapsed 2 1 sendInterval) with true. cbv iota.
  reflexivity.
Qed.

(** C4: in any loop iteration in which [connectToBroker] is invoked and
    fails ([mqttClient.connect] returns false), [readingCount] is not
    incremented, no publish ([beginMessage], [print], [endMessage]) is
    attempted, and [lastSendTime] is unchanged. *)
Theorem failed_connect_leaves_counter_and_marker fuel s u s' evs :
  loop fuel s = Some (u, s', evs) ->
  brokerUp (env s) = false ->
  connectOutcome (env s) (connects (env s)) = false ->
  In (MqttConnect broker port) evs /\
  readingCount (globals s') = readingCount (globals s) /\
  lastSendTime (globals s') = lastSendTime (globals s) /\
  filter isPublishEvent evs = [] /\
  publishCount evs = 0.
Proof.
  intros H Hdown Hfail. apply loop_inv in H as (s1 & evs1 & Hg & -> & ->).
  apply networkGuard_spec in Hg
    as (Hq & Hw & Hb & Hco & Hcn & Hrc & Hls & _ & _).
  unfold Sketch.afterNetwork. rewrite Hb, Hdown.
  destruct (brokerBranch_quiet_publish s1) as (Hp & Hpc & _ & _).
  rewrite filter_app, (quiet_no_publish _ Hq), Hp.
  rewrite publishCount_app, (quiet_publishCount _ Hq), Hpc.
  unfold brokerBranch. cbn [fst snd globals].
  repeat split; auto.
  apply in_or_app. right. right. left. reflexivity.
Qed.

(** C5, as amended: over every sequence of loop iterations that starts with
    [readingCount] = 0 and completes fewer than 2^32 read-and-publish cycles,
    [readingCount] never decreases from one point of the run to a later one,
    and at every point it equals the number of cycles completed so far (one
    increment per cycle of seven publishes, never a reset).  The counter is
    a 32-bit [unsigned long]: in general it holds that number modulo 2^32. *)
Theorem readingCount_counts_cycles fuel ds1 ds2 s u s2 evs :
  readingCount (globals s) = 0 ->
  run fuel (ds1 ++ ds2) s = Some (u, s2, evs) ->
  publishCount evs < 7 * 2 ^ 32 ->
  exists s1 evs1 evs2,
    run fuel ds1 s = Some (tt, s1, evs1) /\
    run fuel ds2 s1 = Some (tt, s2, evs2) /\
    evs = evs1 ++ evs2 /\
    publishCount evs1 = 7 * readingCount (globals s1) /\
    publishCount evs = 7 * readingCount (globals s2) /\
    readingCount (globals s1) <= readingCount (globals s2).
Proof.
  intros Hzero H Hsmall.
  apply run_app in H as (s1 & evs1 & evs2 & H1 & H2 & ->).
  exists s1, evs1, evs2. split; [exact H1|]. split; [exact H2|].
  split; [reflexivity|].
  rewrite publishCount_app in *.
  pose proof (publishCount_nonneg evs1) as Hp1.
  pose proof (publishCount_nonneg evs2) as Hp2.
  apply run_count in H1 as (N1 & HN1 & HpN1 & Hrc1); [|rewrite Hzero; lia].
  rewrite Hzero, Z.add_0_l in Hrc1.
  rewrite IntFacts.wrap32_small in Hrc1 by lia.
  apply run_count in H2 as (N2 & HN2 & HpN2 & Hrc2); [|rewrite Hrc1; lia].
  rewrite Hrc1 in Hrc2.
  rewrite IntFacts.wrap32_small in Hrc2 by lia.
  rewrite Hrc1, Hrc2. lia.
Qed.

(** Clock settings that make every connected iteration send: after [n] of
    them the counter has advanced by [n] modulo 2^32, and 7 [n] publishes
    were completed. *)
Lemma ticktock_run fuel n : forall (odd : bool) s,
  wifiUp (env s) = true ->
  brokerUp (env s) = true ->
  lastSendTime (globals s) = (if odd then 0 else 1) ->
  exists s' evs,
    run fuel (ticktock n odd) s = Some (tt, s', evs) /\
    publishCount evs = 7 * Z.of_nat n /\
    readingCount (globals s') =
      (if (0 <? Z.of_nat n)
       then Int.wrap32 (readingCount (globals s) + Z.of_nat n)
       else readingCount (globals s)).
Proof.
  induction n as [|n IH]; intros odd s Hw Hb Hl.
  - exists s, []. repeat split.
  - cbn [ticktock]. rewrite run_cons.
    rewrite loop_connected by assumption.
    unfold Sketch.gatedBranch, minuteNow. cbn [env globals].
    change (rtcEpoch (atMinute (if odd then 1 else 0) (env s)))
      with (60 * (if odd then 1 else 0)).
    rewrite Hl.
    assert (Hm : minuteOf (Int.wrap32 (60 * (if odd then 1 else 0)))
                 = if odd then 1 else 0) by (now destruct odd).
    rewrite Hm.
    assert (Hi : intervalElapsed (if odd then 1 else 0) (if odd then 0 else 1)
                   sendInterval = true) by (now destruct odd).
    rewrite Hi. cbn [fst snd].
    edestruct (IH (negb odd)) as (s' & evs & Hrun & Hp & Hrc);
      [| | | rewrite Hrun].
    + exact Hw.
    + exact Hb.
    + cbn [globals lastSendTime set_lastSendTime]. now destruct odd.
    + exists s', (readSensorEvents
                    (mkState (globals s)
                       (atMinute (if odd then 1 else 0) (env s))) ++ evs).
      split; [reflexivity|].
      rewrite publishCount_app, readSensorEvents_publishCount, Hp.
      split; [lia|]. rewrite Hrc.
      cbn [globals readingCount set_lastSendTime set_readingCount].
      replace (0 <? Z.of_nat (S n)) with true by (symmetry; apply Z.ltb_lt; lia).
      destruct (0 <? Z.of_nat n) eqn:Hn.
      * rewrite IntFacts.wrap32_add_l. f_equal. lia.
      * apply Z.ltb_ge in Hn. f_equal. lia.
Qed.

(** A completed resynchronisation leaves [startTime] nonzero; it assigns it
    only when it was 0, and then from the clock it has just set. *)
Lemma connectToNetwork_startTime fuel s u s' evs :
  connectToNetwork fuel s = Some (u, s', evs) ->
  startTime (globals s') <> 0 /\
  (startTime (globals s) <> 0 ->
   startTime (globals s') = startTime (globals s)) /\
  (startTime (globals s) = 0 ->
   startTime (globals s') = rtcEpoch (env s') /\
   (exists i, startTime (globals s') = Int.wrap32 (netTime (env s) i)) /\
   In (RtcSetEpoch (startTime (globals s'))) evs).
Proof.
  intros H. apply connectToNetwork_spec in H as (n & j & Hnz & Hg & He & _ & Hin).
  cbv zeta in *. rewrite Hg, He. cbn [rtcEpoch set_rtcEpoch].
  destruct (startTime (globals s) =? 0) eqn:Hz.
  - apply Z.eqb_eq in Hz. cbn [startTime set_startTime].
    split; [exact Hnz|]. split; [intros Hc; contradiction|].
    intros _. split; [reflexivity|].
    split; [now exists (fetches (env s) + j)%nat | exact Hin].
  - apply Z.eqb_neq in Hz.
    split; [exact Hz|]. split; [reflexivity|].
    intros Hc. contradiction.
Qed.

Lemma resyncs_cons fuel d ds s :
  resyncs fuel (d :: ds) s =
  match connectToNetwork fuel (mkState (globals s) (d (env s))) with
  | None => None
  | Some (_, s', _) =>
      match resyncs fuel ds s' with
      | None => None
      | Some ts => Some (startTime (globals s') :: ts)
      end
  end.
Proof.
  cbn [Sketch.resyncs]. unfold bind at 1. unfold modE at 1.
  destruct (connectToNetwork fuel _) as [[[u1 s1] evs1]|]; reflexivity.
Qed.

Lemma resyncs_keep fuel ds : forall s ts,
  startTime (globals s) <> 0 ->
  resyncs fuel ds s = Some ts ->
  Forall (eq (startTime (globals s))) ts.
Proof.
  induction ds as [|d ds IH]; intros s ts Hnz H.
  - injection H as <-. constructor.
  - rewrite resyncs_cons in H.
    destruct (connectToNetwork fuel _) as [[[u1 s1] evs1]|] eqn:Hc;
      [|discriminate].
    destruct (resyncs fuel ds s1) as [ts1|] eqn:Hr; [|discriminate].
    injection H as <-.
    apply connectToNetwork_startTime in Hc as (_ & Hkeep & _).
    cbn [globals] in Hkeep. specialize (Hkeep Hnz).
    constructor; [now rewrite Hkeep|].
    rewrite <- Hkeep. apply IH; [now rewrite Hkeep | exact Hr].
Qed.

(** C6: over every sequence of completed [connectToNetwork] invocations
    (each delivers a nonzero network epoch), [startTime] is assigned a
    nonzero value at most once: by the first invocation, from the epoch it
    fetched, if [startTime] was still 0 (and not at all if it was already
    set); every later resynchronisation leaves it as it is. *)
Theorem startTime_set_once fuel d ds s ts :
  resyncs fuel (d :: ds) s = Some ts ->
  exists t rest,
    ts = t :: rest /\
    t <> 0 /\
    (startTime (globals s) = 0 ->
     exists i, t = Int.wrap32 (netTime (d (env s)) i)) /\
    (startTime (globals s) <> 0 -> t = startTime (globals s)) /\
    Forall (eq t) rest.
Proof.
  intros H. rewrite resyncs_cons in H.
  destruct (connectToNetwork fuel _) as [[[u1 s1] evs1]|] eqn:Hc;
    [|discriminate].
  destruct (resyncs fuel ds s1) as [ts1|] eqn:Hr; [|discriminate].
  injection H as <-.
  apply connectToNetwork_startTime in Hc as (Hnz & Hkeep & Hfirst).
  cbn [globals env] in Hkeep, Hfirst.
  exists (startTime (globals s1)), ts1.
  split; [reflexivity|]. split; [exact Hnz|].
  split; [intros Hz; now destruct (Hfirst Hz) as (_ & Hi & _)|].
  split; [exact Hkeep|].
  now apply (resyncs_keep fuel ds).
Qed.

(** C7: every invocation of [readSensor] performs exactly seven publishes,
    each its own [beginMessage], [print], [endMessage], in the order uid,
    location, timeStamp, lux, ct, uptime, readingCount, each to the topic
    [topic]/field and each carrying the value of the field as a string. *)
Theorem readSensor_publishes_seven_fields s :
  exists r g b c evs,
    rawData (env s) = (r, g, b, c) /\
    readSensor s = Some (tt, s, TcsGetRawData :: evs) /\
    publishCount evs = 7 /\
    topicsOf evs =
      ["light-readings/uid"; "light-readings/location";
       "light-readings/timeStamp"; "light-readings/lux"; "light-readings/ct";
       "light-readings/uptime"; "light-readings/readingCount"] /\
    evs =
      (let now := Int.wrap32 (rtcEpoch (env s)) in
       publishOf (topic ++ "/uid")%string (addressString (globals s))
       ++ publishOf (topic ++ "/location")%string location
       ++ publishOf (topic ++ "/timeStamp")%string (Str.ofUnsigned now)
       ++ publishOf (topic ++ "/lux")%string
            (Str.ofSigned (Int.wrap16 (calculateLux r g b)))
       ++ publishOf (topic ++ "/ct")%string
            (Str.ofSigned
               (Int.wrap16 (calculateColorTemperature_dn40 r g b c)))
       ++ publishOf (topic ++ "/uptime")%string
            (Str.ofUnsigned (Int.wrap32 (now - startTime (globals s))))
       ++ publishOf (topic ++ "/readingCount")%string
            (Str.ofUnsigned (readingCount (globals s)))).
Proof.
  rewrite readSensor_eq. unfold Sketch.readSensorEvents.
  destruct (rawData (env s)) as [[[r g] b] c].
  exists r, g, b, c. eexists.
  split; [reflexivity|]. split; [reflexivity|]. split; [reflexivity|].
  split; reflexivity.
Qed.

(** C8: for every 6-byte MAC address, the device identity that [setup]
    builds has exactly 12 hexadecimal characters, two per byte (a "0" in
    front of the digit of a byte below 16), and no later loop iteration
    changes it. *)
Theorem device_identity_is_twelve_hex_digits e :
  List.length (macAddress e) = 6%nat ->
  exists s evs,
    setup (boot e) = Some (tt, s, evs) /\
    String.length (addressString (globals s)) = 12%nat /\
    Str.allChars Str.isLowerHex (addressString (globals s)) = true /\
    addressString (globals s) = hexOf (rev (macAddress e)) /\
    (forall b,
        let v := Z.of_N (Byte.to_N b) in
        padHex b = String (Str.digitChar (v / 16))
                     (String (Str.digitChar (v mod 16)) "")) /\
    (forall fuel ds u s' evs',
        run fuel ds s = Some (u, s', evs') ->
        addressString (globals s') = addressString (globals s)).
Proof.
  intros Hlen. destruct (setup_spec (boot e) Hlen) as (evs & Hsetup).
  eexists. exists evs. split; [exact Hsetup|].
  cbn [globals env boot initialGlobals addressString set_clientID
       set_addressString append].
  split.
  { rewrite hexOf_length, length_rev, Hlen. reflexivity. }
  split; [apply hexOf_lower|]. split; [reflexivity|].
  split; [apply padHex_two_digits|].
  intros fuel ds u s' evs' Hrun.
  apply run_addressString in Hrun. exact Hrun.
Qed.

(** C9: if some association attempt eventually succeeds and some time
    request eventually returns a nonzero epoch, [connectToNetwork] returns
    (given enough rounds, and then for any larger number of rounds); it
    returns no value, the link is then associated, and the clock has been
    set from a nonzero epoch that the network delivered. *)
Theorem connectToNetwork_returns_connected_and_synced s :
  (exists k, beginOutcome (env s) (attempts (env s) + k)%nat = true) ->
  (exists j, Int.wrap32 (netTime (env s) (fetches (env s) + j)%nat) <> 0) ->
  exists rounds,
    forall fuel, (rounds <= fuel)%nat ->
    exists s' evs,
      connectToNetwork fuel s = Some (tt, s', evs) /\
      wifiUp (env s') = true /\
      rtcEpoch (env s') <> 0 /\
      (exists i, rtcEpoch (env s') = Int.wrap32 (netTime (env s) i)) /\
      In (RtcSetEpoch (rtcEpoch (env s'))) evs.
Proof.
  intros (k & Hk) (j & Hj). exists (Nat.max (S k) j). intros fuel Hfuel.
  destruct (connectToNetwork_terminates s k j Hk Hj fuel Hfuel)
    as (s' & evs & Hrun).
  exists s', evs. split; [exact Hrun|].
  apply connectToNetwork_spec in Hrun as (n & i & Hnz & _ & He & _ & Hin).
  cbv zeta in *. rewrite He. cbn [wifiUp rtcEpoch set_rtcEpoch set_fetches set_wifi].
  split; [reflexivity|]. split; [exact Hnz|].
  split; [now exists (fetches (env s) + i)%nat | exact Hin].
Qed.

(** C10: [setup] goes over the six MAC bytes from index 5 down to index 0,
    so the device identity, which [readSensor] publishes as uid, is the
    hardware address in reversed byte order, each byte as two lower-case
    hexadecimal digits. *)
Theorem uid_is_mac_in_reversed_byte_order e :
  List.length (macAddress e) = 6%nat ->
  exists s evs,
    setup (boot e) = Some (tt, s, evs) /\
    addressString (globals s) =
      (padHex (nth 5 (macAddress e) Byte.x00)
       ++ padHex (nth 4 (macAddress e) Byte.x00)
       ++ padHex (nth 3 (macAddress e) Byte.x00)
       ++ padHex (nth 2 (macAddress e) Byte.x00)
       ++ padHex (nth 1 (macAddress e) Byte.x00)
       ++ padHex (nth 0 (macAddress e) Byte.x00))%string /\
    Str.allChars Str.isLowerHex (addressString (globals s)) = true /\
    exists rest,
      readSensor s =
      Some (tt, s,
            TcsGetRawData
            :: publishOf (topic ++ "/uid")%string (addressString (globals s))
            ++ rest).
Proof.
  intros Hlen. destruct (setup_spec (boot e) Hlen) as (evs & Hsetup).
  eexists. exists evs. split; [exact Hsetup|].
  cbn [globals env boot initialGlobals addressString set_clientID
       set_addressString append].
  split; [|split; [apply hexOf_lower|]].
  - destruct (macAddress e) as [|b0 [|b1 [|b2 [|b3 [|b4 [|b5 [|b6 l]]]]]]];
      try discriminate Hlen.
    cbn [rev app hexOf nth]. now rewrite StrFacts.append_nil_r.
  - rewrite readSensor_eq. unfold Sketch.readSensorEvents.
    cbn [globals env addressString].
    destruct (rawData e) as [[[r g] b] c].
    eexists. reflexivity.
Qed.

End SketchFacts.

(** C2: for every send interval of at least one minute there are a last-send
    epoch and a later current epoch, with an hour boundary between them,
    for which the test of the sketch on the two minutes of the hour,
    [abs(current - last) >= interval], decides differently from a test on
    the whole minutes that really elapsed: the absolute-difference
    comparison is not an elapsed-interval gate across wraparound. *)
Theorem minute_gate_differs_from_elapsed_gate interval :
  1 <= interval ->
  exists lastEpoch nowEpoch,
    0 <= lastEpoch <= nowEpoch /\
    lastEpoch / 3600 < nowEpoch / 3600 /\
    intervalElapsed (minuteOf nowEpoch) (minuteOf lastEpoch) interval
    <> elapsedGate lastEpoch nowEpoch interval.
Proof.
  intros Hi. exists 0, (3600 * interval).
  split; [lia|]. split.
  - rewrite Z.mul_comm, Z.div_mul by lia. change (0 / 3600) with 0. lia.
  - assert (Hnow : minuteOf (3600 * interval) = 0).
    { unfold minuteOf.
      replace (3600 * interval) with (60 * interval * 60) by lia.
      rewrite Z.div_mul by lia.
      replace (60 * interval) with (interval * 60) by lia.
      apply Z.mod_mul. lia. }
    assert (Hel : elapsedMinutes 0 (3600 * interval) = 60 * interval).
    { unfold elapsedMinutes. rewrite Z.sub_0_r.
      replace (3600 * interval) with (60 * interval * 60) by lia.
      apply Z.div_mul. lia. }
    unfold intervalElapsed, elapsedGate. rewrite Hnow, Hel.
    change (minuteOf 0) with 0. change (Z.abs (0 - 0)) with 0.
    replace (0 >=? interval) with false
      by (symmetry; rewrite Z.geb_leb; apply Z.leb_gt; lia).
    replace (60 * interval >=? interval) with true
      by (symmetry; rewrite Z.geb_leb; apply Z.leb_le; lia).
    discriminate.
Qed.

(** The transition the wraparound is usually shown on: from minute 59 to
    minute 0, one minute later.  The sketch sends for every interval from 2
    to 59 although one minute has passed; for the configured interval of 1
    the two gates agree there. *)
Lemma minute_gate_59_to_0 interval :
  2 <= interval <= 59 ->
  minuteOf (59 * 60) = 59 /\ minuteOf (60 * 60) = 0 /\
  intervalElapsed 0 59 interval = true /\
  elapsedGate (59 * 60) (60 * 60) interval = false.
Proof.
  intros Hi. split; [reflexivity|]. split; [reflexivity|].
  unfold intervalElapsed, elapsedGate, elapsedMinutes.
  change (Z.abs (0 - 59)) with 59. change ((60 * 60 - 59 * 60) / 60) with 1.
  rewrite !Z.geb_leb. split; [apply Z.leb_le | apply Z.leb_gt]; lia.
Qed.

Example minute_gate_59_to_0_configured :
  intervalElapsed 0 59 sendInterval = elapsedGate (59 * 60) (60 * 60) sendInterval.
Proof. reflexivity. Qed.

(* ===================================================================== *)
(** ** The claims on sample inputs *)
(* ===================================================================== *)

(** C1, as stated, fails: the broker client is not connected, the connection
    attempt succeeds and the interval has elapsed (minute 5 against a last
    send at minute 0), yet the iteration ends after subscribing; it makes no
    interval check, reads no sensor, publishes nothing and counts nothing. *)
Lemma loop_ends_after_successful_connect :
  let s := mkState initialGlobals (atMinute 5 brokerDownEnv) in
  let s' := mkState initialGlobals (set_broker true 1 (atMinute 5 brokerDownEnv)) in
  brokerUp (env s) = false /\
  connectOutcome (env s) (connects (env s)) = true /\
  intervalElapsed (minuteNow s) (lastSendTime (globals s)) sendInterval = true /\
  sampleLoop 0 s =
    Some (tt, s',
          [SerialPrintln "reconnecting to broker";
           MqttConnect broker port; MqttSubscribe topic]) /\
  readingCount (globals s') = readingCount (globals s) /\
  lastSendTime (globals s') = lastSendTime (globals s).
Proof. cbv zeta. repeat split. Qed.

Lemma loop_broker_down_witness :
  let s := boot brokerDownEnv in
  let s' := mkState initialGlobals (set_broker true 1 brokerDownEnv) in
  let evs := [SerialPrintln "reconnecting to broker";
              MqttConnect broker port; MqttSubscribe topic] in
  sampleLoop 0 s = Some (tt, s', evs) /\
  brokerUp (env s) = false /\
  connectCount evs = 1 /\
  filter isPublishEvent evs = [] /\
  existsb isSensorRead evs = false /\
  readingCount (globals s') = readingCount (globals s) /\
  lastSendTime (globals s') = lastSendTime (globals s) /\
  brokerUp (env s') = connectOutcome (env s) (connects (env s)) /\
  (connectOutcome (env s) (connects (env s)) = true ->
   In (MqttSubscribe topic) evs /\
   forall fuel',
     sampleLoop fuel' s' =
     Some (tt, fst (gatedBranch sampleColorTemperature sampleLux s'),
               snd (gatedBranch sampleColorTemperature sampleLux s'))).
Proof.
  cbv zeta. split; [reflexivity|]. split; [reflexivity|].
  apply (loop_broker_down_connects_once_and_ends
           "ssid" "pass" sampleColorTemperature sampleLux 0
           (boot brokerDownEnv) tt); reflexivity.
Defined.

Lemma minute_gate_witness :
  1 <= sendInterval /\
  exists lastEpoch nowEpoch,
    0 <= lastEpoch <= nowEpoch /\
    lastEpoch / 3600 < nowEpoch / 3600 /\
    intervalElapsed (minuteOf nowEpoch) (minuteOf lastEpoch) sendInterval
    <> elapsedGate lastEpoch nowEpoch sendInterval.
Proof.
  split; [unfold sendInterval; lia|].
  apply (minute_gate_differs_from_elapsed_gate sendInterval).
  unfold sendInterval. lia.
Defined.

Lemma readings_over_minutes_witness :
  wifiUp (env (boot sampleEnv)) = true /\
  brokerUp (env (boot sampleEnv)) = true /\
  lastSendTime (globals (boot sampleEnv)) = 0 /\
  sendInterval = 1 /\
  sampleFirings 0 (map atMinute [0; 0; 1; 2]) (boot sampleEnv)
  = Some [false; false; true; true].
Proof.
  split; [reflexivity|]. split; [reflexivity|]. split; [reflexivity|].
  apply (readings_over_minutes_0_0_1_2
           "ssid" "pass" sampleColorTemperature sampleLux 0 (boot sampleEnv));
    reflexivity.
Defined.

Lemma failed_connect_witness :
  let s := boot refusingEnv in
  let s' := mkState initialGlobals (set_broker false 1 refusingEnv) in
  let evs := [SerialPrintln "reconnecting to broker";
              MqttConnect broker port;
              SerialPrint "MOTT connection failed. Error no: ";
              SerialPrintln "-2"] in
  sampleLoop 0 s = Some (tt, s', evs) /\
  brokerUp (env s) = false /\
  connectOutcome (env s) (connects (env s)) = false /\
  In (MqttConnect broker port) evs /\
  readingCount (globals s') = readingCount (globals s) /\
  lastSendTime (globals s') = lastSendTime (globals s) /\
  filter isPublishEvent evs = [] /\
  publishCount evs = 0.
Proof.
  cbv zeta. split; [reflexivity|]. split; [reflexivity|]. split; [reflexivity|].
  apply (failed_connect_leaves_counter_and_marker
           "ssid" "pass" sampleColorTemperature sampleLux 0
           (boot refusingEnv) tt); reflexivity.
Defined.

(** C5, as stated, fails when the counter overflows.  Run from boot over
    clock settings that make every iteration send: after 2^32 - 1 iterations
    the counter is 2^32 - 1, after 2^32 iterations (the same settings and one
    more) 2^32 cycles are completed and the counter is back at 0. *)
Lemma readingCount_wraps_to_zero :
  exists s1 evs1 s2 evs2,
    sampleRun 0 (ticktock (Z.to_nat (2 ^ 32 - 1)) true) (boot sampleEnv)
    = Some (tt, s1, evs1) /\
    publishCount evs1 = 7 * (2 ^ 32 - 1) /\
    readingCount (globals s1) = 2 ^ 32 - 1 /\
    sampleRun 0 (ticktock (Z.to_nat (2 ^ 32)) true) (boot sampleEnv)
    = Some (tt, s2, evs2) /\
    publishCount evs2 = 7 * 2 ^ 32 /\
    readingCount (globals s2) = 0.
Proof.
  destruct (ticktock_run "ssid" "pass" sampleColorTemperature sampleLux 0
              (Z.to_nat (2 ^ 32 - 1)) true (boot sampleEnv)
              eq_refl eq_refl eq_refl) as (s1 & evs1 & Hrun1 & Hp1 & Hrc1).
  destruct (ticktock_run "ssid" "pass" sampleColorTemperature sampleLux 0
              (Z.to_nat (2 ^ 32)) true (boot sampleEnv)
              eq_refl eq_refl eq_refl) as (s2 & evs2 & Hrun2 & Hp2 & Hrc2).
  rewrite Z2Nat.id in Hp1, Hrc1 by lia.
  rewrite Z2Nat.id in Hp2, Hrc2 by lia.
  exists s1, evs1, s2, evs2.
  split; [exact Hrun1|]. split; [exact Hp1|]. split; [exact Hrc1|].
  split; [exact Hrun2|]. split; [exact Hp2|]. exact Hrc2.
Qed.

(** The iteration at which the counter wraps. *)
Example readingCount_wraps_in_one_iteration :
  let s := mkState (set_readingCount (2 ^ 32 - 1) initialGlobals)
                   (atMinute 1 sampleEnv) in
  option_map (fun r => readingCount (globals (snd (fst r)))) (sampleLoop 0 s)
  = Some 0.
Proof. reflexivity. Qed.

Lemma readingCount_counts_cycles_witness :
  exists s2 evs,
    readingCount (globals (boot sampleEnv)) = 0 /\
    sampleRun 0 (map atMinute [1] ++ map atMinute [1; 2]) (boot sampleEnv)
    = Some (tt, s2, evs) /\
    publishCount evs < 7 * 2 ^ 32 /\
    exists s1 evs1 evs2,
      sampleRun 0 (map atMinute [1]) (boot sampleEnv) = Some (tt, s1, evs1) /\
      sampleRun 0 (map atMinute [1; 2]) s1 = Some (tt, s2, evs2) /\
      evs = evs1 ++ evs2 /\
      publishCount evs1 = 7 * readingCount (globals s1) /\
      publishCount evs = 7 * readingCount (globals s2) /\
      readingCount (globals s1) <= readingCount (globals s2).
Proof.
  eexists. eexists.
  split; [reflexivity|]. split; [vm_compute; reflexivity|].
  split; [vm_compute; reflexivity|].
  apply (readingCount_counts_cycles
           "ssid" "pass" sampleColorTemperature sampleLux 0
           (map atMinute [1]) (map atMinute [1; 2]) (boot sampleEnv) tt);
    vm_compute; reflexivity.
Defined.

Lemma startTime_set_once_witness :
  sampleResyncs 1 [dropLink; dropLink; dropLink] (boot sampleEnv)
  = Some [1700000000; 1700000000; 1700000000] /\
  exists t rest,
    [1700000000; 1700000000; 1700000000] = t :: rest /\
    t <> 0 /\
    (startTime (globals (boot sampleEnv)) = 0 ->
     exists i, t = Int.wrap32 (netTime (dropLink (env (boot sampleEnv))) i)) /\
    (startTime (globals (boot sampleEnv)) <> 0 ->
     t = startTime (globals (boot sampleEnv))) /\
    Forall (eq t) rest.
Proof.
  split; [vm_compute; reflexivity|].
  apply (startTime_set_once "ssid" "pass" 1 dropLink [dropLink; dropLink]
           (boot sampleEnv) [1700000000; 1700000000; 1700000000]).
  vm_compute; reflexivity.
Defined.

(** The clock does follow the later resynchronisations. *)
Example clock_follows_resyncs :
  option_map (fun r => rtcEpoch (env (snd (fst r))))
    ((modE dropLink ;; sampleConnectToNetwork 1 ;;
      modE dropLink ;; sampleConnectToNetwork 1)%sketch (boot sampleEnv))
  = Some 1700003600.
Proof. vm_compute. reflexivity. Qed.

(** C7 on the reading of the specification: lux 100, colour temperature
    4000. *)
Example readSensor_sample :
  sampleReadSensor
    (mkState (mkGlobals "f54e3d2c1b0a" "light-client-home" 1700000000 0 3)
             (setClock 1700000090 sampleEnv))
  = Some (tt,
          mkState (mkGlobals "f54e3d2c1b0a" "light-client-home" 1700000000 0 3)
                  (setClock 1700000090 sampleEnv),
          [TcsGetRawData;
           MqttBeginMessage "light-readings/uid";
           MqttPrint "f54e3d2c1b0a"; MqttEndMessage;
           MqttBeginMessage "light-readings/location";
           MqttPrint "home"; MqttEndMessage;
           MqttBeginMessage "light-readings/timeStamp";
           MqttPrint "1700000090"; MqttEndMessage;
           MqttBeginMessage "light-readings/lux";
           MqttPrint "100"; MqttEndMessage;
           MqttBeginMessage "light-readings/ct";
           MqttPrint "4000"; MqttEndMessage;
           MqttBeginMessage "light-readings/uptime";
           MqttPrint "90"; MqttEndMessage;
           MqttBeginMessage "light-readings/readingCount";
           MqttPrint "3"; MqttEndMessage]).
Proof. vm_compute. reflexivity. Qed.

Lemma device_identity_witness :
  List.length (macAddress sampleEnv) = 6%nat /\
  exists s evs,
    sampleSetup (boot sampleEnv) = Some (tt, s, evs) /\
    String.length (addressString (globals s)) = 12%nat /\
    Str.allChars Str.isLowerHex (addressString (globals s)) = true /\
    addressString (globals s) = hexOf (rev (macAddress sampleEnv)) /\
    (forall b,
        let v := Z.of_N (Byte.to_N b) in
        padHex b = String (Str.digitChar (v / 16))
                     (String (Str.digitChar (v mod 16)) "")) /\
    (forall fuel ds u s' evs',
        sampleRun fuel ds s = Some (u, s', evs') ->
        addressString (globals s') = addressString (globals s)).
Proof.
  split; [reflexivity|].
  apply (device_identity_is_twelve_hex_digits
           "ssid" "pass" "user" "secret" sampleColorTemperature sampleLux
           sampleEnv).
  reflexivity.
Defined.

Lemma connectToNetwork_returns_witness :
  (exists k, beginOutcome linkDownEnv (attempts linkDownEnv + k)%nat = true) /\
  (exists j, Int.wrap32 (netTime linkDownEnv (fetches linkDownEnv + j)%nat) <> 0) /\
  exists rounds,
    forall fuel, (rounds <= fuel)%nat ->
    exists s' evs,
      sampleConnectToNetwork fuel (boot linkDownEnv) = Some (tt, s', evs) /\
      wifiUp (env s') = true /\
      rtcEpoch (env s') <> 0 /\
      (exists i, rtcEpoch (env s') = Int.wrap32 (netTime linkDownEnv i)) /\
      In (RtcSetEpoch (rtcEpoch (env s'))) evs.
Proof.
  assert (Hk : exists k,
             beginOutcome linkDownEnv (attempts linkDownEnv + k)%nat = true)
    by (exists 0%nat; reflexivity).
  assert (Hj : exists j,
             Int.wrap32 (netTime linkDownEnv (fetches linkDownEnv + j)%nat) <> 0)
    by (exists 0%nat; vm_compute; discriminate).
  split; [exact Hk|]. split; [exact Hj|].
  exact (connectToNetwork_returns_connected_and_synced
           "ssid" "pass" (boot linkDownEnv) Hk Hj).
Defined.

Lemma uid_reversed_witness :
  List.length (macAddress sampleEnv) = 6%nat /\
  exists s evs,
    sampleSetup (boot sampleEnv) = Some (tt, s, evs) /\
    addressString (globals s) =
      (padHex (nth 5 (macAddress sampleEnv) Byte.x00)
       ++ padHex (nth 4 (macAddress sampleEnv) Byte.x00)
       ++ padHex (nth 3 (macAddress sampleEnv) Byte.x00)
       ++ padHex (nth 2 (macAddress sampleEnv) Byte.x00)
       ++ padHex (nth 1 (macAddress sampleEnv) Byte.x00)
       ++ padHex (nth 0 (macAddress sampleEnv) Byte.x00))%string /\
    Str.allChars Str.isLowerHex (addressString (globals s)) = true /\
    exists rest,
      sampleReadSensor s =
      Some (tt, s,
            TcsGetRawData
            :: publishOf (topic ++ "/uid")%string (addressString (globals s))
            ++ rest).
Proof.
  split; [reflexivity|].
  apply (uid_is_mac_in_reversed_byte_order
           "user" "secret" sampleColorTemperature sampleLux sampleEnv).
  reflexivity.
Defined.

(** The sample address 0a:1b:2c:3d:4e:f5 gives the identity "f54e3d2c1b0a",
    not "0a1b2c3d4ef5". *)
Example uid_sample_is_reversed :
  hexOf (rev sampleMac) = "f54e3d2c1b0a" /\ hexOf sampleMac = "0a1b2c3d4ef5".
Proof. split; reflexivity. Qed.

(* ===================================================================== *)
(** * Further properties of the sketch *)
(* ===================================================================== *)

Lemma countOf_app p evs1 evs2 :
  countOf p (evs1 ++ evs2) = countOf p evs1 + countOf p evs2.
Proof. unfold countOf. rewrite filter_app, length_app. lia. Qed.

Lemma delayTotal_app evs1 evs2 :
  delayTotal (evs1 ++ evs2) = delayTotal evs1 + delayTotal evs2.
Proof.
  induction evs1 as [|e evs1 IH]; [reflexivity|].
  destruct e; cbn [app delayTotal]; rewrite IH; lia.
Qed.

Lemma minuteOf_range epoch : 0 <= minuteOf epoch < 60.
Proof. unfold minuteOf. apply Z.mod_pos_bound. lia. Qed.

(** With the configured interval of one minute the gate is "the minute
    differs". *)
Lemma intervalElapsed_configured a b :
  intervalElapsed a b sendInterval = negb (a =? b).
Proof.
  unfold intervalElapsed, sendInterval. rewrite Z.geb_leb.
  destruct (a =? b) eqn:Hab; cbn [negb].
  - apply Z.eqb_eq in Hab. apply Z.leb_gt. lia.
  - apply Z.eqb_neq in Hab. apply Z.leb_le. lia.
Qed.

(** Whole publishes followed by whole publishes. *)
Lemma publishTriples_app evs2 : forall n evs1,
  (List.length evs1 <= n)%nat ->
  publishTriples evs1 = true ->
  publishTriples (evs1 ++ evs2) = publishTriples evs2.
Proof.
  induction n as [|n IH]; intros evs1 Hlen H1.
  - destruct evs1; [reflexivity | simpl in Hlen; lia].
  - destruct evs1 as [|e1 [|e2 [|e3 rest]]]; [reflexivity | | |];
      destruct e1; try discriminate H1;
      try (destruct e2; try discriminate H1);
      try (destruct e3; try discriminate H1).
    cbn [app publishTriples]. apply IH; [simpl in Hlen; lia | exact H1].
Qed.

(** Split a conjunction into its parts, and nothing else. *)
Ltac split_all := repeat match goal with |- _ /\ _ => split end.

Section Coverage.

Variables SECRET_SSID SECRET_PASS SECRET_MQTT_USER SECRET_MQTT_PASS : string.
Variable calculateColorTemperature_dn40 : Z -> Z -> Z -> Z -> Z.
Variable calculateLux : Z -> Z -> Z -> Z.

Local Abbreviation setup := (Sketch.setup SECRET_MQTT_USER SECRET_MQTT_PASS).
Local Abbreviation readSensor :=
  (Sketch.readSensor calculateColorTemperature_dn40 calculateLux).
Local Abbreviation readSensorEvents :=
  (Sketch.readSensorEvents calculateColorTemperature_dn40 calculateLux).
Local Abbreviation afterNetwork :=
  (Sketch.afterNetwork calculateColorTemperature_dn40 calculateLux).
Local Abbreviation associate := (Sketch.associate SECRET_SSID SECRET_PASS).
Local Abbreviation associateRound :=
  (Sketch.associateRound SECRET_SSID SECRET_PASS).
Local Abbreviation connectToNetwork :=
  (Sketch.connectToNetwork SECRET_SSID SECRET_PASS).
Local Abbreviation networkGuard :=
  (Sketch.networkGuard SECRET_SSID SECRET_PASS).
Local Abbreviation loop :=
  (Sketch.loop SECRET_SSID SECRET_PASS calculateColorTemperature_dn40
     calculateLux).
Local Abbreviation run :=
  (Sketch.run SECRET_SSID SECRET_PASS calculateColorTemperature_dn40
     calculateLux).

(** The three ways the second half of an iteration can go. *)
Lemma afterNetwork_cases s :
  (brokerUp (env s) = false /\ afterNetwork s = brokerBranch s) \/
  (brokerUp (env s) = true /\
   minuteNow s = lastSendTime (globals s) /\
   afterNetwork s = (s, [])) \/
  (brokerUp (env s) = true /\
   minuteNow s <> lastSendTime (globals s) /\
   afterNetwork s =
     (mkState
        (set_lastSendTime (minuteNow s)
           (set_readingCount (Int.wrap32 (readingCount (globals s) + 1))
              (globals s)))
        (env s),
      readSensorEvents s)).
Proof.
  unfold Sketch.afterNetwork, Sketch.gatedBranch.
  destruct (brokerUp (env s)); [right | left; split; reflexivity].
  rewrite intervalElapsed_configured.
  destruct (minuteNow s =? lastSendTime (globals s)) eqn:Hm; cbn [negb].
  - left. apply Z.eqb_eq in Hm. repeat split. exact Hm.
  - right. apply Z.eqb_neq in Hm. repeat split. exact Hm.
Qed.

(** What the events of a reading look like to the measures. *)
Lemma readSensorEvents_measures s :
  countOf isSensorRead (readSensorEvents s) = 1 /\
  publishCount (readSensorEvents s) = 7 /\
  connectCount (readSensorEvents s) = 0 /\
  countOf isSubscribe (readSensorEvents s) = 0 /\
  countOf isSetEpoch (readSensorEvents s) = 0 /\
  countOf isWiFiBegin (readSensorEvents s) = 0 /\
  countOf isGetTime (readSensorEvents s) = 0 /\
  publishTriples (filter isPublishEvent (readSensorEvents s)) = true /\
  List.length (filter isPublishEvent (readSensorEvents s)) = 21%nat.
Proof.
  unfold Sketch.readSensorEvents.
  destruct (rawData (env s)) as [[[r g] b] c]. repeat split.
Qed.

Lemma brokerBranch_measures s :
  countOf isSensorRead (snd (brokerBranch s)) = 0 /\
  publishCount (snd (brokerBranch s)) = 0 /\
  connectCount (snd (brokerBranch s)) = 1 /\
  countOf isSubscribe (snd (brokerBranch s)) =
    (if connectOutcome (env s) (connects (env s)) then 1 else 0) /\
  countOf isSetEpoch (snd (brokerBranch s)) = 0 /\
  countOf isWiFiBegin (snd (brokerBranch s)) = 0 /\
  countOf isGetTime (snd (brokerBranch s)) = 0 /\
  filter isPublishEvent (snd (brokerBranch s)) = [].
Proof.
  unfold brokerBranch. cbn [snd].
  destruct (connectOutcome (env s) (connects (env s))); repeat split.
Qed.

(** What the network guard leaves of the program variables: all of them, or
    all but a [startTime] that was 0. *)
Lemma networkGuard_globals fuel s u s1 evs1 :
  networkGuard fuel s = Some (u, s1, evs1) ->
  globals s1 = globals s \/
  (startTime (globals s) = 0 /\
   exists t, t <> 0 /\ globals s1 = set_startTime t (globals s)).
Proof.
  unfold Sketch.networkGuard. destruct (wifiUp (env s)).
  - intros H. injection H as _ <- _. now left.
  - intros H. apply connectToNetwork_spec in H as (n & j & Hnz & Hg & _).
    cbv zeta in *. rewrite Hg.
    destruct (startTime (globals s) =? 0) eqn:Hz; [right | now left].
    apply Z.eqb_eq in Hz. split; [exact Hz|]. eexists. split; [exact Hnz|].
    reflexivity.
Qed.

Lemma quiet_countOf_read evs : quiet evs = true -> countOf isSensorRead evs = 0.
Proof.
  intros H. unfold countOf.
  replace (filter isSensorRead evs) with (@nil event); [reflexivity|].
  induction evs as [|e evs IH]; [reflexivity|].
  simpl in H. apply andb_prop in H as [He H].
  destruct e; try discriminate He; simpl; now apply IH.
Qed.

Lemma loop_lastSendTime_range fuel s u s' evs :
  loop fuel s = Some (u, s', evs) ->
  0 <= lastSendTime (globals s) < 60 ->
  0 <= lastSendTime (globals s') < 60.
Proof.
  intros H Hr. apply loop_inv in H as (s1 & evs1 & Hg & -> & _).
  apply networkGuard_spec in Hg as (_ & _ & _ & _ & _ & _ & Hls & _).
  destruct (afterNetwork_cases s1) as [(_ & ->) | [(_ & _ & ->) | (_ & _ & ->)]];
    cbn [fst brokerBranch globals lastSendTime set_lastSendTime];
    try (rewrite Hls; exact Hr).
  apply minuteOf_range.
Qed.

(** X1: over any run of loop iterations, [lastSendTime] stays a minute of
    the hour (0 to 59) once it is one, as it is at boot; the difference that
    [loop] takes the absolute value of is then at most 59 either way. *)
Theorem lastSendTime_stays_a_minute fuel ds : forall s u s' evs,
  0 <= lastSendTime (globals s) < 60 ->
  run fuel ds s = Some (u, s', evs) ->
  0 <= lastSendTime (globals s') < 60 /\
  Z.abs (minuteNow s' - lastSendTime (globals s')) <= 59.
Proof.
  induction ds as [|d ds IH]; intros s u s' evs Hr H.
  - injection H as _ <- _. split; [exact Hr|].
    pose proof (minuteOf_range (Int.wrap32 (rtcEpoch (env s)))) as Hm.
    unfold minuteNow. lia.
  - rewrite run_cons in H.
    destruct (loop fuel _) as [[[u1 s1] evs1]|] eqn:Hl; [|discriminate].
    destruct (run fuel ds s1) as [[[u2 s2] evs2]|] eqn:Hrun; [|discriminate].
    injection H as _ <- _.
    apply loop_lastSendTime_range in Hl; [|exact Hr].
    exact (IH s1 u2 s2 evs2 Hl Hrun).
Qed.

(** One iteration that starts with the link up and the clock in minute [m]:
    it reads the sensor at most once, and not at all when the last send was
    in minute [m]; after a reading the last send is in minute [m]. *)
Lemma loop_at_minute m fuel d s u s' evs :
  holdsMinute m d ->
  loop fuel (mkState (globals s) (d (env s))) = Some (u, s', evs) ->
  (lastSendTime (globals s') = lastSendTime (globals s) /\
   publishCount evs = 0 /\ countOf isSensorRead evs = 0) \/
  (lastSendTime (globals s) <> m /\ lastSendTime (globals s') = m /\
   publishCount evs = 7 /\ countOf isSensorRead evs = 1).
Proof.
  intros Hd H. destruct (Hd (env s)) as (Hup & Hmin).
  apply loop_inv in H as (s1 & evs1 & Hg & -> & ->).
  apply networkGuard_spec in Hg as (_ & _ & _ & _ & _ & _ & _ & _ & Hsame).
  destruct (Hsame Hup) as (-> & ->). cbn [app].
  set (s0 := mkState (globals s) (d (env s))).
  assert (Hnow : minuteNow s0 = m) by exact Hmin.
  destruct (afterNetwork_cases s0) as [(_ & ->) | [(_ & _ & ->) | (_ & Hne & ->)]];
    cbn [fst snd].
  - left. destruct (brokerBranch_measures s0) as (Hr & Hp & _).
    repeat split; assumption.
  - left. repeat split.
  - right. rewrite Hnow in *.
    destruct (readSensorEvents_measures s0) as (Hr & Hp & _).
    cbn [globals lastSendTime set_lastSendTime].
    repeat split; try assumption. intros Heq. apply Hne. symmetry. exact Heq.
Qed.

Lemma run_at_minute_after_send m fuel ds : forall s u s' evs,
  Forall (holdsMinute m) ds ->
  lastSendTime (globals s) = m ->
  run fuel ds s = Some (u, s', evs) ->
  publishCount evs = 0 /\ countOf isSensorRead evs = 0.
Proof.
  induction ds as [|d ds IH]; intros s u s' evs Hds Hm H.
  - injection H as _ _ <-. split; reflexivity.
  - rewrite run_cons in H.
    destruct (loop fuel _) as [[[u1 s1] evs1]|] eqn:Hl; [|discriminate].
    destruct (run fuel ds s1) as [[[u2 s2] evs2]|] eqn:Hrun; [|discriminate].
    injection H as _ _ <-.
    inversion Hds as [|d' ds' Hd Hrest]; subst d' ds'.
    apply (loop_at_minute m) in Hl; [|exact Hd].
    destruct Hl as [(Hkeep & Hp & Hr) | (Hne & _)]; [|contradiction].
    rewrite Hm in Hkeep.
    destruct (IH s1 u2 s2 evs2 Hrest Hkeep Hrun) as (Hp2 & Hr2).
    rewrite publishCount_app, countOf_app. lia.
Qed.

(** X2: while the link stays up and the clock stays in one minute of the
    hour, any number of loop iterations makes at most one reading (one
    sensor read, seven publishes). *)
Theorem at_most_one_reading_within_a_minute m fuel ds : forall s u s' evs,
  Forall (holdsMinute m) ds ->
  run fuel ds s = Some (u, s', evs) ->
  countOf isSensorRead evs <= 1 /\ publishCount evs <= 7.
Proof.
  induction ds as [|d ds IH]; intros s u s' evs Hds H.
  - injection H as _ _ <-. split; discriminate.
  - rewrite run_cons in H.
    destruct (loop fuel _) as [[[u1 s1] evs1]|] eqn:Hl; [|discriminate].
    destruct (run fuel ds s1) as [[[u2 s2] evs2]|] eqn:Hrun; [|discriminate].
    injection H as _ _ <-.
    inversion Hds as [|d' ds' Hd Hrest]; subst d' ds'.
    rewrite publishCount_app, countOf_app.
    apply (loop_at_minute m) in Hl; [|exact Hd].
    destruct Hl as [(_ & Hp & Hr) | (_ & Hsent & Hp & Hr)].
    + destruct (IH s1 u2 s2 evs2 Hrest Hrun) as (Hr2 & Hp2). lia.
    + destruct (run_at_minute_after_send m fuel ds s1 u2 s2 evs2 Hrest Hsent Hrun)
        as (Hp2 & Hr2). lia.
Qed.


(** X4: the gate compares minutes of the hour, which differ by at most 59:
    with an interval of 60 minutes or more it never opens, whatever the two
    epochs are. *)
Theorem interval_of_an_hour_never_elapses nowEpoch lastEpoch interval :
  60 <= interval ->
  intervalElapsed (minuteOf nowEpoch) (minuteOf lastEpoch) interval = false.
Proof.
  intros Hi. unfold intervalElapsed. rewrite Z.geb_leb. apply Z.leb_gt.
  pose proof (minuteOf_range nowEpoch). pose proof (minuteOf_range lastEpoch).
  lia.
Qed.

(** The association loop makes one attempt after the other until one brings
    the link up: when the first [k] attempts fail and the next succeeds, it
    makes [k + 1] attempts and waits 2 s after each. *)
Lemma associate_counts k : forall s fuel,
  wifiUp (env s) = false ->
  (forall i, (i < k)%nat ->
     beginOutcome (env s) (attempts (env s) + i)%nat = false) ->
  beginOutcome (env s) (attempts (env s) + k)%nat = true ->
  (k < fuel)%nat ->
  exists evs,
    associate fuel s =
    Some (tt,
          mkState (globals s)
                  (set_wifi true (attempts (env s) + S k)%nat (env s)),
          evs) /\
    countOf isWiFiBegin evs = Z.of_nat (S k) /\
    countOf isGetTime evs = 0 /\
    countOf isSetEpoch evs = 0 /\
    delayTotal evs = 2000 * Z.of_nat (S k).
Proof.
  induction k as [|k IH]; intros s fuel Hdown Hfail Hok Hfuel;
    (destruct fuel as [|fuel']; [lia|]);
    rewrite associate_unfold, Hdown.
  - rewrite Nat.add_0_r in Hok. rewrite Hok.
    rewrite associate_unfold. cbn [env wifiUp set_wifi].
    eexists. split.
    + rewrite Nat.add_1_r. reflexivity.
    + repeat split.
  - assert (H0 : beginOutcome (env s) (attempts (env s)) = false).
    { rewrite <- (Nat.add_0_r (attempts (env s))). apply Hfail. lia. }
    rewrite H0.
    destruct (IH (mkState (globals s)
                    (set_wifi false (S (attempts (env s))) (env s))) fuel')
      as (evs & Hrun & Hb & Hg & He & Hd).
    + reflexivity.
    + intros i Hi. cbn [env beginOutcome attempts set_wifi].
      rewrite Nat.add_succ_comm. apply Hfail. lia.
    + cbn [env beginOutcome attempts set_wifi].
      now rewrite Nat.add_succ_comm.
    + lia.
    + rewrite Hrun. cbn [env globals attempts set_wifi].
      eexists. split.
      * rewrite Nat.add_succ_comm. reflexivity.
      * rewrite !countOf_app, delayTotal_app, Hb, Hg, He, Hd.
        change (countOf isWiFiBegin associateRound) with 1.
        change (countOf isGetTime associateRound) with 0.
        change (countOf isSetEpoch associateRound) with 0.
        change (delayTotal associateRound) with 2000.
        repeat split; lia.
Qed.

(** The time loop asks again until the answer is not 0: when the first [j]
    answers are 0 and the next is not, it makes [j + 1] requests, waits 2 s
    after each, and returns the last answer. *)
Lemma fetchTime_counts j : forall s fuel,
  (forall i, (i < j)%nat ->
     Int.wrap32 (netTime (env s) (fetches (env s) + i)%nat) = 0) ->
  Int.wrap32 (netTime (env s) (fetches (env s) + j)%nat) <> 0 ->
  (j <= fuel)%nat ->
  exists evs,
    fetchTime fuel s =
    Some (Int.wrap32 (netTime (env s) (fetches (env s) + j)%nat),
          mkState (globals s)
                  (set_fetches (fetches (env s) + S j)%nat (env s)),
          evs) /\
    countOf isGetTime evs = Z.of_nat (S j) /\
    countOf isWiFiBegin evs = 0 /\
    countOf isSetEpoch evs = 0 /\
    delayTotal evs = 2000 * Z.of_nat (S j).
Proof.
  induction j as [|j IH]; intros s fuel Hzero Hnz Hfuel;
    rewrite fetchTime_unfold; cbv zeta.
  - rewrite Nat.add_0_r in Hnz. apply Z.eqb_neq in Hnz. rewrite Hnz.
    eexists. split.
    + rewrite Nat.add_0_r, Nat.add_1_r. reflexivity.
    + repeat split.
  - assert (H0 : Int.wrap32 (netTime (env s) (fetches (env s))) = 0).
    { rewrite <- (Nat.add_0_r (fetches (env s))). apply Hzero. lia. }
    rewrite H0. cbn [Z.eqb].
    destruct fuel as [|fuel']; [lia|].
    destruct (IH (mkState (globals s)
                    (set_fetches (S (fetches (env s))) (env s))) fuel')
      as (evs & Hrun & Hg & Hb & He & Hd).
    + intros i Hi. cbn [env netTime fetches set_fetches].
      rewrite Nat.add_succ_comm. apply Hzero. lia.
    + cbn [env netTime fetches set_fetches].
      now rewrite Nat.add_succ_comm.
    + lia.
    + rewrite Hrun. cbn [env globals netTime fetches set_fetches].
      eexists. split.
      * rewrite !Nat.add_succ_comm. reflexivity.
      * rewrite !countOf_app, delayTotal_app, Hb, Hg, He, Hd.
        change (countOf isWiFiBegin fetchRound) with 0.
        change (countOf isGetTime fetchRound) with 1.
        change (countOf isSetEpoch fetchRound) with 0.
        change (delayTotal fetchRound) with 2000.
        repeat split; lia.
Qed.

Lemma syncReport_measures epoch s :
  countOf isWiFiBegin (syncReport epoch s) = 0 /\
  countOf isGetTime (syncReport epoch s) = 0 /\
  countOf isSetEpoch (syncReport epoch s) = 1 /\
  delayTotal (syncReport epoch s) = 0.
Proof. repeat split. Qed.

(** The measures of what [connectToNetwork] emits, from those of its two
    loops. *)
Lemma connectToNetwork_events_measures evs1 evs2 epoch s :
  let evs := evs1 ++ SerialPrintln "connected." :: evs2 ++ syncReport epoch s in
  countOf isWiFiBegin evs = countOf isWiFiBegin evs1 + countOf isWiFiBegin evs2 /\
  countOf isGetTime evs = countOf isGetTime evs1 + countOf isGetTime evs2 /\
  countOf isSetEpoch evs =
    countOf isSetEpoch evs1 + countOf isSetEpoch evs2 + 1 /\
  delayTotal evs = delayTotal evs1 + delayTotal evs2.
Proof.
  cbv zeta.
  change (evs1 ++ SerialPrintln "connected." :: evs2 ++ syncReport epoch s)
    with (evs1 ++ [SerialPrintln "connected."] ++ evs2 ++ syncReport epoch s).
  rewrite !countOf_app, !delayTotal_app.
  destruct (syncReport_measures epoch s) as (-> & -> & -> & ->).
  change (countOf isWiFiBegin [SerialPrintln "connected."]) with 0.
  change (countOf isGetTime [SerialPrintln "connected."]) with 0.
  change (countOf isSetEpoch [SerialPrintln "connected."]) with 0.
  change (delayTotal [SerialPrintln "connected."]) with 0.
  repeat split; lia.
Qed.

(** X5: [connectToNetwork] retries exactly as long as it has to.  Called
    with the link down, when the first [k] association attempts fail and the
    next succeeds, and the first [j] time requests return 0 and the next does
    not, it makes [k + 1] calls of [WiFi.begin] and [j + 1] calls of
    [WiFi.getTime], spends 2 s in [delay] after each of them, sets the clock
    once, to the last time it fetched, and returns with the link up. *)
Theorem connectToNetwork_retries_until_success s k j fuel :
  wifiUp (env s) = false ->
  (forall i, (i < k)%nat ->
     beginOutcome (env s) (attempts (env s) + i)%nat = false) ->
  beginOutcome (env s) (attempts (env s) + k)%nat = true ->
  (forall i, (i < j)%nat ->
     Int.wrap32 (netTime (env s) (fetches (env s) + i)%nat) = 0) ->
  Int.wrap32 (netTime (env s) (fetches (env s) + j)%nat) <> 0 ->
  (Nat.max (S k) j <= fuel)%nat ->
  exists s' evs,
    connectToNetwork fuel s = Some (tt, s', evs) /\
    countOf isWiFiBegin evs = Z.of_nat k + 1 /\
    countOf isGetTime evs = Z.of_nat j + 1 /\
    countOf isSetEpoch evs = 1 /\
    delayTotal evs = 2000 * (Z.of_nat k + 1 + (Z.of_nat j + 1)) /\
    wifiUp (env s') = true /\
    attempts (env s') = (attempts (env s) + S k)%nat /\
    fetches (env s') = (fetches (env s) + S j)%nat /\
    rtcEpoch (env s') = Int.wrap32 (netTime (env s) (fetches (env s) + j)%nat).
Proof.
  intros Hdown Hfail Hok Hzero Hnz Hfuel. rewrite connectToNetwork_eq.
  destruct (associate_counts k s fuel Hdown Hfail Hok)
    as (evs1 & -> & Hb1 & Hg1 & He1 & Hd1); [lia|].
  destruct (fetchTime_counts j
              (mkState (globals s)
                 (set_wifi true (attempts (env s) + S k)%nat (env s))) fuel)
    as (evs2 & -> & Hg2 & Hb2 & He2 & Hd2); [exact Hzero | exact Hnz | lia |].
  eexists. eexists. split; [reflexivity|].
  match goal with
  | |- context [evs1 ++ SerialPrintln "connected." :: evs2 ++ syncReport ?e ?t] =>
      destruct (connectToNetwork_events_measures evs1 evs2 e t)
        as (-> & -> & -> & ->)
  end.
  rewrite Hb1, Hg1, He1, Hd1, Hg2, Hb2, He2, Hd2.
  unfold synced.
  cbn [env globals wifiUp attempts fetches rtcEpoch netTime
       set_rtcEpoch set_fetches set_wifi].
  repeat split; lia.
Qed.

(** X6: called with the link already up, [connectToNetwork] makes no
    association attempt at all, but still fetches the time (at least one
    request, again until the answer is not 0) and sets the clock. *)
Theorem connectToNetwork_link_up_only_syncs s j fuel :
  wifiUp (env s) = true ->
  (forall i, (i < j)%nat ->
     Int.wrap32 (netTime (env s) (fetches (env s) + i)%nat) = 0) ->
  Int.wrap32 (netTime (env s) (fetches (env s) + j)%nat) <> 0 ->
  (j <= fuel)%nat ->
  exists s' evs,
    connectToNetwork fuel s = Some (tt, s', evs) /\
    countOf isWiFiBegin evs = 0 /\
    countOf isGetTime evs = Z.of_nat j + 1 /\
    countOf isSetEpoch evs = 1 /\
    attempts (env s') = attempts (env s) /\
    wifiUp (env s') = true /\
    rtcEpoch (env s') = Int.wrap32 (netTime (env s) (fetches (env s) + j)%nat).
Proof.
  intros Hup Hzero Hnz Hfuel. rewrite connectToNetwork_eq.
  rewrite associate_unfold, Hup.
  destruct (fetchTime_counts j s fuel Hzero Hnz Hfuel)
    as (evs2 & -> & Hg2 & Hb2 & He2 & Hd2).
  eexists. eexists. split; [reflexivity|].
  match goal with
  | |- context [[] ++ SerialPrintln "connected." :: evs2 ++ syncReport ?e ?t] =>
      destruct (connectToNetwork_events_measures [] evs2 e t)
        as (-> & -> & -> & _)
  end.
  rewrite Hg2, Hb2, He2. unfold synced.
  cbn [env globals wifiUp attempts rtcEpoch set_rtcEpoch set_fetches].
  change (countOf isWiFiBegin []) with 0. change (countOf isGetTime []) with 0.
  change (countOf isSetEpoch []) with 0.
  repeat split; try lia. exact Hup.
Qed.

(** X7: [connectToNetwork] keeps to the network and the clock.  Whenever it
    returns, the broker connection and its attempt counter, the sensor data
    and the MAC address are as before, of the program variables only
    [startTime] may have changed, and it has made no broker connection
    attempt, no publish and no sensor read. *)
Theorem connectToNetwork_leaves_broker_and_counters fuel s u s' evs :
  connectToNetwork fuel s = Some (u, s', evs) ->
  brokerUp (env s') = brokerUp (env s) /\
  connects (env s') = connects (env s) /\
  rawData (env s') = rawData (env s) /\
  macAddress (env s') = macAddress (env s) /\
  addressString (globals s') = addressString (globals s) /\
  clientID (globals s') = clientID (globals s) /\
  lastSendTime (globals s') = lastSendTime (globals s) /\
  readingCount (globals s') = readingCount (globals s) /\
  connectCount evs = 0 /\
  filter isPublishEvent evs = [] /\
  countOf isSensorRead evs = 0.
Proof.
  intros H. apply connectToNetwork_spec in H as (n & j & _ & Hg & He & Hq & _).
  cbv zeta in *. rewrite Hg, He.
  cbn [brokerUp connects rawData macAddress set_rtcEpoch set_fetches set_wifi].
  rewrite (quiet_no_connect _ Hq), (quiet_no_publish _ Hq),
    (quiet_countOf_read _ Hq).
  destruct (startTime (globals s) =? 0); repeat split.
Qed.

Lemma readSensorEvents_split s :
  exists pre mid post,
    readSensorEvents s =
      pre
      ++ publishOf (topic ++ "/timeStamp")%string
           (Str.ofUnsigned (Int.wrap32 (rtcEpoch (env s))))
      ++ mid
      ++ publishOf (topic ++ "/uptime")%string
           (Str.ofUnsigned
              (Int.wrap32 (Int.wrap32 (rtcEpoch (env s))
                           - startTime (globals s))))
      ++ post /\
    post = publishOf (topic ++ "/readingCount")%string
             (Str.ofUnsigned (readingCount (globals s))).
Proof.
  unfold Sketch.readSensorEvents.
  destruct (rawData (env s)) as [[[r g] b] c].
  exists (TcsGetRawData
          :: publishOf "light-readings/uid" (addressString (globals s))
          ++ publishOf "light-readings/location" "home"),
         (publishOf "light-readings/lux"
            (Str.ofSigned (Int.wrap16 (calculateLux r g b)))
          ++ publishOf "light-readings/ct"
               (Str.ofSigned
                  (Int.wrap16 (calculateColorTemperature_dn40 r g b c)))).
  eexists. split; reflexivity.
Qed.

(** X8: the count published with a reading is the value of [readingCount]
    before the reading is counted.  In every iteration that reads the
    sensor, the last publish goes to the readingCount topic and carries the
    value [readingCount] had when the iteration began (0 for the first
    reading after boot); the iteration leaves [readingCount] one higher. *)
Theorem reading_publishes_count_before_increment fuel s u s' evs :
  loop fuel s = Some (u, s', evs) ->
  countOf isSensorRead evs = 1 ->
  (exists pre,
     evs = pre ++ publishOf (topic ++ "/readingCount")%string
                    (Str.ofUnsigned (readingCount (globals s)))) /\
  readingCount (globals s') = Int.wrap32 (readingCount (globals s) + 1).
Proof.
  intros H Hread. apply loop_inv in H as (s1 & evs1 & Hg & -> & ->).
  apply networkGuard_spec in Hg as (Hq & _ & _ & _ & _ & Hrc & _).
  rewrite countOf_app, (quiet_countOf_read _ Hq) in Hread.
  destruct (afterNetwork_cases s1) as [(_ & Ha) | [(_ & _ & Ha) | (_ & _ & Ha)]];
    rewrite Ha in *; cbn [fst snd] in *.
  - destruct (brokerBranch_measures s1) as (Hr & _). rewrite Hr in Hread.
    discriminate.
  - discriminate.
  - cbn [globals readingCount set_lastSendTime set_readingCount].
    rewrite Hrc. split; [|reflexivity].
    destruct (readSensorEvents_split s1) as (pre & mid & post & -> & ->).
    rewrite Hrc. eexists. rewrite !app_assoc. reflexivity.
Qed.

Lemma loop_startTime fuel s u s' evs :
  loop fuel s = Some (u, s', evs) ->
  startTime (globals s) <> 0 ->
  startTime (globals s') = startTime (globals s).
Proof.
  intros H Hnz. apply loop_inv in H as (s1 & evs1 & Hg & -> & _).
  apply networkGuard_spec in Hg as (_ & _ & _ & _ & _ & _ & _ & Hst & _).
  rewrite <- (Hst Hnz).
  destruct (afterNetwork_cases s1) as [(_ & ->) | [(_ & _ & ->) | (_ & _ & ->)]];
    reflexivity.
Qed.

(** X9: over any run of loop iterations, whatever happens to the link, the
    broker and the clock in between, a [startTime] that is set (not 0) is
    never changed: the uptime is always counted from the first
    synchronisation. *)
Theorem startTime_fixed_over_runs fuel ds : forall s u s' evs,
  startTime (globals s) <> 0 ->
  run fuel ds s = Some (u, s', evs) ->
  startTime (globals s') = startTime (globals s).
Proof.
  induction ds as [|d ds IH]; intros s u s' evs Hnz H.
  - injection H as _ <- _. reflexivity.
  - rewrite run_cons in H.
    destruct (loop fuel _) as [[[u1 s1] evs1]|] eqn:Hl; [|discriminate].
    destruct (run fuel ds s1) as [[[u2 s2] evs2]|] eqn:Hrun; [|discriminate].
    injection H as _ <- _.
    apply loop_startTime in Hl; [|exact Hnz]. cbn [globals] in Hl.
    rewrite <- Hl. apply (IH s1 u2 s2 evs2); [now rewrite Hl | exact Hrun].
Qed.

(** X10: a run in which every iteration finds the link up never stalls and
    never calls [connectToNetwork]: no association attempt, no time request,
    the clock is never set by the sketch, and [startTime] keeps its value,
    also the 0 it has at boot. *)
Theorem link_always_up_never_syncs fuel ds : forall s,
  Forall keepsLinkUp ds ->
  exists s' evs,
    run fuel ds s = Some (tt, s', evs) /\
    countOf isWiFiBegin evs = 0 /\
    countOf isGetTime evs = 0 /\
    countOf isSetEpoch evs = 0 /\
    startTime (globals s') = startTime (globals s).
Proof.
  induction ds as [|d ds IH]; intros s Hds.
  - exists s, []. repeat split.
  - inversion Hds as [|d' ds' Hd Hrest]; subst d' ds'.
    rewrite run_cons, loop_eq. cbn [env]. rewrite (Hd (env s)).
    set (s0 := mkState (globals s) (d (env s))).
    destruct (IH (fst (afterNetwork s0)) Hrest)
      as (s' & evs & -> & Hb & Hg & He & Hst).
    eexists. eexists. split; [reflexivity|].
    rewrite !countOf_app, Hb, Hg, He, Hst. cbn [app].
    destruct (afterNetwork_cases s0)
      as [(_ & ->) | [(_ & _ & ->) | (_ & _ & ->)]]; cbn [fst snd].
    + destruct (brokerBranch_measures s0) as (_ & _ & _ & _ & -> & -> & -> & _).
      repeat split.
    + repeat split.
    + destruct (readSensorEvents_measures s0)
        as (_ & _ & _ & _ & -> & -> & -> & _).
      repeat split.
Qed.


Lemma unhexByte_padHex (b : Byte.byte) : unhexByte (padHex b) = Some b.
Proof. destruct b; reflexivity. Qed.

Lemma padHex_inj b c : padHex b = padHex c -> b = c.
Proof.
  intros H. apply (f_equal unhexByte) in H.
  rewrite !unhexByte_padHex in H. now injection H.
Qed.

Lemma hexOf_inj : forall bs cs,
  List.length bs = List.length cs -> hexOf bs = hexOf cs -> bs = cs.
Proof.
  induction bs as [|b bs IH]; intros [|c cs] Hlen H; try discriminate Hlen;
    [reflexivity|].
  cbn [hexOf] in H.
  assert (Hb : padHex b = padHex c /\ hexOf bs = hexOf cs).
  { pose proof (padHex_two_digits b) as Pb.
    pose proof (padHex_two_digits c) as Pc. cbv zeta in Pb, Pc.
    rewrite Pb, Pc in H |- *. cbn [append] in H.
    injection H as H1 H2 H3. rewrite H1, H2. split; [reflexivity | exact H3]. }
  destruct Hb as (Hb & Hrest).
  apply padHex_inj in Hb. subst c. f_equal.
  apply IH; [simpl in Hlen; lia | exact Hrest].
Qed.

(** X12: the device identity tells devices apart: two interfaces with
    6-byte addresses for which [setup] builds the same identity string have
    the same address (the "0" in front of a small byte keeps the digits of
    neighbouring bytes from running together). *)
Theorem device_identity_determines_mac e1 e2 s1 evs1 s2 evs2 :
  List.length (macAddress e1) = 6%nat ->
  List.length (macAddress e2) = 6%nat ->
  setup (boot e1) = Some (tt, s1, evs1) ->
  setup (boot e2) = Some (tt, s2, evs2) ->
  addressString (globals s1) = addressString (globals s2) ->
  macAddress e1 = macAddress e2.
Proof.
  intros Hl1 Hl2 H1 H2 Heq.
  destruct (setup_spec SECRET_MQTT_USER SECRET_MQTT_PASS (boot e1) Hl1)
    as (evs1' & E1).
  destruct (setup_spec SECRET_MQTT_USER SECRET_MQTT_PASS (boot e2) Hl2)
    as (evs2' & E2).
  rewrite E1 in H1. rewrite E2 in H2.
  injection H1 as <- _. injection H2 as <- _.
  cbn [globals env boot initialGlobals addressString set_clientID
       set_addressString append] in Heq.
  apply hexOf_inj in Heq; [|rewrite !length_rev; congruence].
  rewrite <- (rev_involutive (macAddress e1)), Heq. apply rev_involutive.
Qed.

Lemma loop_publish_events fuel s u s' evs :
  loop fuel s = Some (u, s', evs) ->
  publishTriples (filter isPublishEvent evs) = true /\
  (List.length (filter isPublishEvent evs) <= 21)%nat /\
  publishCount evs = 7 * countOf isSensorRead evs /\
  countOf isSensorRead evs <= 1.
Proof.
  intros H. apply loop_inv in H as (s1 & evs1 & Hg & -> & ->).
  apply networkGuard_spec in Hg as (Hq & _).
  rewrite filter_app, (quiet_no_publish _ Hq), publishCount_app, countOf_app,
    (quiet_publishCount _ Hq), (quiet_countOf_read _ Hq). cbn [app].
  destruct (afterNetwork_cases s1) as [(_ & ->) | [(_ & _ & ->) | (_ & _ & ->)]];
    cbn [fst snd].
  - destruct (brokerBranch_measures s1) as (-> & -> & _ & _ & _ & _ & _ & ->).
    split_all; try reflexivity; try lia; simpl; lia.
  - change (countOf isSensorRead []) with 0.
    split_all; try reflexivity; try lia; simpl; lia.
  - destruct (readSensorEvents_measures s1)
      as (-> & -> & _ & _ & _ & _ & _ & -> & ->).
    split_all; try reflexivity; lia.
Qed.

(** X13: over any run of loop iterations the calls that make up publishes
    come in whole publishes only: a [beginMessage], then one [print], then
    the [endMessage], and then the next [beginMessage]; none is left open
    and none is nested in another. *)
Theorem publishes_are_whole fuel ds : forall s u s' evs,
  run fuel ds s = Some (u, s', evs) ->
  publishTriples (filter isPublishEvent evs) = true.
Proof.
  induction ds as [|d ds IH]; intros s u s' evs H.
  - injection H as _ _ <-. reflexivity.
  - rewrite run_cons in H.
    destruct (loop fuel _) as [[[u1 s1] evs1]|] eqn:Hl; [|discriminate].
    destruct (run fuel ds s1) as [[[u2 s2] evs2]|] eqn:Hrun; [|discriminate].
    injection H as _ _ <-.
    apply loop_publish_events in Hl as (Ht & Hlen & _).
    rewrite filter_app.
    rewrite (publishTriples_app _ 21 _ Hlen Ht).
    exact (IH s1 u2 s2 evs2 Hrun).
Qed.

(** X14: [loop] attempts a broker connection only when the client reports
    that it is not connected: an iteration that finds the client connected
    makes no connection attempt, and leaves the client connected and its
    attempt counter as they were. *)
Theorem no_connect_attempt_while_connected fuel s u s' evs :
  loop fuel s = Some (u, s', evs) ->
  brokerUp (env s) = true ->
  connectCount evs = 0 /\
  brokerUp (env s') = true /\
  connects (env s') = connects (env s).
Proof.
  intros H Hup. apply loop_inv in H as (s1 & evs1 & Hg & -> & ->).
  apply networkGuard_spec in Hg as (Hq & _ & Hb & _ & Hcn & _).
  rewrite connectCount_app, (quiet_no_connect _ Hq).
  rewrite Hup in Hb.
  destruct (afterNetwork_cases s1)
    as [(Hdown & _) | [(_ & _ & ->) | (_ & _ & ->)]];
    [congruence | |]; cbn [fst snd env].
  - repeat split; assumption.
  - destruct (readSensorEvents_measures s1) as (_ & _ & -> & _).
    repeat split; assumption.
Qed.

(** [setup] in full, on a state whose interface has a 6-byte address. *)
Lemma setup_eq s :
  List.length (macAddress (env s)) = 6%nat ->
  setup s =
    Some (tt,
          mkState
            (set_clientID (clientID (globals s) ++ location)%string
               (set_addressString
                  (addressString (globals s)
                   ++ hexOf (rev (firstn 6 (macAddress (env s)))))%string
                  (globals s)))
            (env s),
          (SerialBegin 9600
           :: (if serialOpen (env s) then [] else [Delay 3000])
           ++ [RtcBegin; WiFiMacAddress;
               MqttSetId (clientID (globals s) ++ location)%string;
               MqttSetUsernamePassword SECRET_MQTT_USER SECRET_MQTT_PASS;
               MqttSetKeepAliveInterval keepAliveInterval])
          ++ [MqttBeginWill willTopic
                (Z.of_nat (String.length "sensor died")) true 1;
              MqttPrint "sensor died"; MqttEndWill]).
Proof.
  intros Hlen. unfold Sketch.setup.
  unfold bind at 1. unfold emit at 1.
  unfold bind at 1. unfold getE at 1.
  unfold bind at 1.
  assert (Hw : when (negb (serialOpen (env s))) (emit (Delay 3000)) s =
               Some (tt, s, if serialOpen (env s) then [] else [Delay 3000])).
  { destruct (serialOpen (env s)); reflexivity. }
  rewrite Hw.
  unfold bind at 1. unfold emit at 1.
  unfold bind at 1. unfold emit at 1.
  unfold bind at 1. unfold getE at 1.
  unfold bind at 1. rewrite macLoop_eq by lia.
  destruct (serialOpen (env s)); reflexivity.
Qed.

(** X15: [setup] registers the last will as the last thing it does and
    before any connection exists: its final three calls are [beginWill] on
    the will topic (retained, QoS 1, with the length of the payload as
    size), the [print] of the payload and [endWill]; before them it has set
    the client id (the initial id followed by the location) and a keep-alive
    of twice the send interval in milliseconds, and it has made no
    connection attempt and no publish.  It changes no peripheral state and
    neither [startTime], [lastSendTime] nor [readingCount]. *)
Theorem setup_registers_will_before_connecting s :
  List.length (macAddress (env s)) = 6%nat ->
  exists s' pre,
    setup s =
      Some (tt, s',
            pre ++ [MqttBeginWill willTopic
                      (Z.of_nat (String.length "sensor died")) true 1;
                    MqttPrint "sensor died"; MqttEndWill]) /\
    clientID (globals s') = (clientID (globals s) ++ location)%string /\
    In (MqttSetId (clientID (globals s'))) pre /\
    In (MqttSetKeepAliveInterval (sendInterval * 2 * 60 * 1000)) pre /\
    connectCount pre = 0 /\
    filter isPublishEvent pre = [] /\
    env s' = env s /\
    startTime (globals s') = startTime (globals s) /\
    lastSendTime (globals s') = lastSendTime (globals s) /\
    readingCount (globals s') = readingCount (globals s).
Proof.
  intros Hlen. rewrite (setup_eq s Hlen).
  eexists. eexists. split; [reflexivity|].
  cbn [globals env clientID startTime lastSendTime readingCount
       set_clientID set_addressString].
  destruct (serialOpen (env s)); repeat split; simpl; tauto.
Qed.

Lemma loop_clientID fuel s u s' evs :
  loop fuel s = Some (u, s', evs) ->
  clientID (globals s') = clientID (globals s).
Proof.
  intros H. apply loop_inv in H as (s1 & evs1 & Hg & -> & _).
  apply networkGuard_globals in Hg.
  assert (Hc : clientID (globals s1) = clientID (globals s)).
  { destruct Hg as [-> | (_ & t & _ & ->)]; reflexivity. }
  rewrite <- Hc.
  destruct (afterNetwork_cases s1) as [(_ & ->) | [(_ & _ & ->) | (_ & _ & ->)]];
    reflexivity.
Qed.

(** X16: the client id is built once: after [setup] from boot it is
    "light-client-home", that is the id [setup] hands to the MQTT client,
    and no run of loop iterations changes it. *)
Theorem clientID_fixed_by_setup e :
  List.length (macAddress e) = 6%nat ->
  exists s evs,
    setup (boot e) = Some (tt, s, evs) /\
    clientID (globals s) = "light-client-home" /\
    In (MqttSetId "light-client-home") evs /\
    (forall fuel ds u s' evs',
        run fuel ds s = Some (u, s', evs') ->
        clientID (globals s') = "light-client-home").
Proof.
  intros Hlen. rewrite (setup_eq (boot e) Hlen).
  eexists. eexists. split; [reflexivity|].
  split; [reflexivity|]. split.
  - cbn [env globals boot initialGlobals clientID].
    destruct (serialOpen e); simpl; tauto.
  - intros fuel ds. induction ds as [|d ds IH] using rev_ind;
      intros u s' evs' Hrun.
    + injection Hrun as _ <- _. reflexivity.
    + apply run_app in Hrun as (sm & ea & eb & Ha & Hb & _).
      rewrite run_cons in Hb.
      destruct (loop fuel _) as [[[u1 s1] evs1]|] eqn:Hl; [|discriminate].
      injection Hb as <- _.
      apply loop_clientID in Hl. cbn [globals] in Hl. rewrite Hl.
      exact (IH tt sm ea Ha).
Qed.

(** X17: over any run of loop iterations every sensor read comes with its
    seven publishes and there is no publish without one: the number of
    completed publishes is seven times the number of sensor reads, and there
    is at most one sensor read per iteration. *)
Theorem seven_publishes_per_sensor_read fuel ds : forall s u s' evs,
  run fuel ds s = Some (u, s', evs) ->
  publishCount evs = 7 * countOf isSensorRead evs /\
  countOf isSensorRead evs <= Z.of_nat (List.length ds).
Proof.
  induction ds as [|d ds IH]; intros s u s' evs H.
  - injection H as _ _ <-. split; [reflexivity | discriminate].
  - rewrite run_cons in H.
    destruct (loop fuel _) as [[[u1 s1] evs1]|] eqn:Hl; [|discriminate].
    destruct (run fuel ds s1) as [[[u2 s2] evs2]|] eqn:Hrun; [|discriminate].
    injection H as _ _ <-.
    apply loop_publish_events in Hl as (_ & _ & Hp & Hr).
    destruct (IH s1 u2 s2 evs2 Hrun) as (Hp2 & Hr2).
    rewrite publishCount_app, countOf_app, Hp, Hp2. split; [lia|].
    cbn [List.length]. lia.
Qed.

(** X18: a refused connection is retried by the very next iteration, and
    nothing else happens meanwhile: while the link is up and the broker
    refuses every attempt, each loop iteration makes exactly one connection
    attempt, no iteration reads the sensor or publishes, and [readingCount]
    and [lastSendTime] stay as they are. *)
Theorem refused_connection_is_retried_every_iteration fuel ds : forall s,
  brokerRefuses (env s) ->
  Forall keepsRefusing ds ->
  exists s' evs,
    run fuel ds s = Some (tt, s', evs) /\
    connectCount evs = Z.of_nat (List.length ds) /\
    publishCount evs = 0 /\
    countOf isSensorRead evs = 0 /\
    readingCount (globals s') = readingCount (globals s) /\
    lastSendTime (globals s') = lastSendTime (globals s) /\
    brokerRefuses (env s').
Proof.
  induction ds as [|d ds IH]; intros s Href Hds.
  - exists s, []. split_all; try reflexivity. exact Href.
  - inversion Hds as [|d' ds' Hd Hrest]; subst d' ds'.
    destruct (Hd (env s) Href) as (Hup & Hdown & Hall).
    rewrite run_cons, loop_eq. cbn [env]. rewrite Hup.
    set (s0 := mkState (globals s) (d (env s))).
    unfold Sketch.afterNetwork. cbn [env s0]. rewrite Hdown.
    destruct (brokerBranch_measures s0) as (Hr & Hp & Hc & _).
    destruct (IH (fst (brokerBranch s0))) as (s' & evs & -> & Hc2 & Hp2 & Hr2 & Hrc & Hls & Href2).
    + unfold brokerBranch. cbn [fst env s0 brokerUp connectOutcome set_broker].
      rewrite Hall. split; [reflexivity | exact Hall].
    + exact Hrest.
    + eexists. eexists. split; [reflexivity|].
      rewrite connectCount_app, publishCount_app, countOf_app.
      cbn [app]. rewrite Hc, Hp, Hr, Hc2, Hp2, Hr2, Hrc, Hls.
      split_all; try reflexivity; try exact Href2.
      cbn [List.length]. lia.
Qed.

End Coverage.

(* ===================================================================== *)
(** ** The further properties on sample inputs *)
(* ===================================================================== *)

Lemma lastSendTime_stays_a_minute_witness :
  exists s' evs,
    0 <= lastSendTime (globals (boot sampleEnv)) < 60 /\
    sampleRun 0 (map atMinute [61; 125]) (boot sampleEnv) = Some (tt, s', evs) /\
    0 <= lastSendTime (globals s') < 60 /\
    Z.abs (minuteNow s' - lastSendTime (globals s')) <= 59.
Proof.
  eexists. eexists. split; [simpl; lia|].
  split; [vm_compute; reflexivity|].
  eapply (lastSendTime_stays_a_minute
           "ssid" "pass" sampleColorTemperature sampleLux 0
           (map atMinute [61; 125]) (boot sampleEnv) tt);
    [simpl; lia | vm_compute; reflexivity].
Defined.

Lemma at_most_one_reading_witness :
  let ds := [linkUpAtMinute 7; linkUpAtMinute 7; linkUpAtMinute 7] in
  exists s' evs,
    Forall (holdsMinute 7) ds /\
    sampleRun 0 ds (boot sampleEnv) = Some (tt, s', evs) /\
    countOf isSensorRead evs <= 1 /\ publishCount evs <= 7.
Proof.
  cbv zeta.
  assert (Hds : Forall (holdsMinute 7)
                  [linkUpAtMinute 7; linkUpAtMinute 7; linkUpAtMinute 7])
    by (repeat constructor).
  eexists. eexists. split; [exact Hds|].
  split; [vm_compute; reflexivity|].
  eapply (at_most_one_reading_within_a_minute
           "ssid" "pass" sampleColorTemperature sampleLux 7 0
           [linkUpAtMinute 7; linkUpAtMinute 7; linkUpAtMinute 7]
           (boot sampleEnv) tt);
    [exact Hds | vm_compute; reflexivity].
Defined.


Lemma interval_of_an_hour_witness :
  60 <= 60 /\
  intervalElapsed (minuteOf 3540) (minuteOf 0) 60 = false.
Proof.
  split; [lia|].
  eapply (interval_of_an_hour_never_elapses 3540 0 60). lia.
Defined.

Lemma connectToNetwork_retries_witness :
  let s := boot stubbornEnv in
  wifiUp (env s) = false /\
  (forall i, (i < 2)%nat ->
     beginOutcome (env s) (attempts (env s) + i)%nat = false) /\
  beginOutcome (env s) (attempts (env s) + 2)%nat = true /\
  (forall i, (i < 2)%nat ->
     Int.wrap32 (netTime (env s) (fetches (env s) + i)%nat) = 0) /\
  Int.wrap32 (netTime (env s) (fetches (env s) + 2)%nat) <> 0 /\
  (Nat.max 3 2 <= 3)%nat /\
  exists s' evs,
    sampleConnectToNetwork 3 s = Some (tt, s', evs) /\
    countOf isWiFiBegin evs = Z.of_nat 2 + 1 /\
    countOf isGetTime evs = Z.of_nat 2 + 1 /\
    countOf isSetEpoch evs = 1 /\
    delayTotal evs = 2000 * (Z.of_nat 2 + 1 + (Z.of_nat 2 + 1)) /\
    wifiUp (env s') = true /\
    attempts (env s') = (attempts (env s) + 3)%nat /\
    fetches (env s') = (fetches (env s) + 3)%nat /\
    rtcEpoch (env s') = Int.wrap32 (netTime (env s) (fetches (env s) + 2)%nat).
Proof.
  cbv zeta.
  assert (H1 : forall i, (i < 2)%nat ->
             beginOutcome (env (boot stubbornEnv))
               (attempts (env (boot stubbornEnv)) + i)%nat = false)
    by (intros [|[|i]] Hi; [reflexivity | reflexivity | lia]).
  assert (H2 : forall i, (i < 2)%nat ->
             Int.wrap32 (netTime (env (boot stubbornEnv))
                           (fetches (env (boot stubbornEnv)) + i)%nat) = 0)
    by (intros [|[|i]] Hi; [reflexivity | reflexivity | lia]).
  assert (H3 : Int.wrap32 (netTime (env (boot stubbornEnv))
                             (fetches (env (boot stubbornEnv)) + 2)%nat) <> 0)
    by (vm_compute; discriminate).
  assert (H4 : (Nat.max 3 2 <= 3)%nat) by (simpl; lia).
  split; [reflexivity|]. split; [exact H1|]. split; [reflexivity|].
  split; [exact H2|]. split; [exact H3|]. split; [exact H4|].
  exact (connectToNetwork_retries_until_success
           "ssid" "pass" (boot stubbornEnv) 2 2 3 eq_refl H1 eq_refl H2 H3 H4).
Defined.

Lemma connectToNetwork_link_up_witness :
  let s := boot sampleEnv in
  wifiUp (env s) = true /\
  (forall i, (i < 0)%nat ->
     Int.wrap32 (netTime (env s) (fetches (env s) + i)%nat) = 0) /\
  Int.wrap32 (netTime (env s) (fetches (env s) + 0)%nat) <> 0 /\
  (0 <= 0)%nat /\
  exists s' evs,
    sampleConnectToNetwork 0 s = Some (tt, s', evs) /\
    countOf isWiFiBegin evs = 0 /\
    countOf isGetTime evs = Z.of_nat 0 + 1 /\
    countOf isSetEpoch evs = 1 /\
    attempts (env s') = attempts (env s) /\
    wifiUp (env s') = true /\
    rtcEpoch (env s') = Int.wrap32 (netTime (env s) (fetches (env s) + 0)%nat).
Proof.
  cbv zeta.
  assert (H1 : forall i, (i < 0)%nat ->
             Int.wrap32 (netTime (env (boot sampleEnv))
                           (fetches (env (boot sampleEnv)) + i)%nat) = 0)
    by (intros i Hi; lia).
  assert (H2 : Int.wrap32 (netTime (env (boot sampleEnv))
                             (fetches (env (boot sampleEnv)) + 0)%nat) <> 0)
    by (vm_compute; discriminate).
  split; [reflexivity|]. split; [exact H1|]. split; [exact H2|].
  split; [lia|].
  exact (connectToNetwork_link_up_only_syncs
           "ssid" "pass" (boot sampleEnv) 0 0 eq_refl H1 H2 (le_n 0)).
Defined.

Lemma connectToNetwork_leaves_broker_witness :
  let s := boot linkDownEnv in
  exists s' evs,
    sampleConnectToNetwork 1 s = Some (tt, s', evs) /\
    brokerUp (env s') = brokerUp (env s) /\
    connects (env s') = connects (env s) /\
    rawData (env s') = rawData (env s) /\
    macAddress (env s') = macAddress (env s) /\
    addressString (globals s') = addressString (globals s) /\
    clientID (globals s') = clientID (globals s) /\
    lastSendTime (globals s') = lastSendTime (globals s) /\
    readingCount (globals s') = readingCount (globals s) /\
    connectCount evs = 0 /\
    filter isPublishEvent evs = [] /\
    countOf isSensorRead evs = 0.
Proof.
  cbv zeta. eexists. eexists. split; [vm_compute; reflexivity|].
  eapply (connectToNetwork_leaves_broker_and_counters
           "ssid" "pass" 1 (boot linkDownEnv) tt).
  vm_compute; reflexivity.
Defined.

Lemma reading_publishes_count_witness :
  exists s' evs,
    sampleLoop 0 syncedState = Some (tt, s', evs) /\
    countOf isSensorRead evs = 1 /\
    (exists pre,
       evs = pre ++ publishOf (topic ++ "/readingCount")%string
                      (Str.ofUnsigned (readingCount (globals syncedState)))) /\
    readingCount (globals s')
      = Int.wrap32 (readingCount (globals syncedState) + 1).
Proof.
  eexists. eexists. split; [vm_compute; reflexivity|].
  split; [vm_compute; reflexivity|].
  eapply (reading_publishes_count_before_increment
            "ssid" "pass" sampleColorTemperature sampleLux 0 syncedState tt);
    vm_compute; reflexivity.
Defined.

(** The first reading after boot carries the count 0 and leaves the counter
    at 1. *)
Example first_reading_publishes_zero :
  option_map (fun r => (last (snd r) MqttEndWill,
                        nth 20 (snd r) MqttEndWill,
                        readingCount (globals (snd (fst r)))))
             (sampleLoop 0 dueState)
  = Some (MqttEndMessage, MqttPrint "0", 1).
Proof. vm_compute. reflexivity. Qed.

Lemma startTime_fixed_witness :
  exists s' evs,
    startTime (globals syncedState) <> 0 /\
    sampleRun 1 [dropLink; atMinute 3] syncedState = Some (tt, s', evs) /\
    startTime (globals s') = startTime (globals syncedState).
Proof.
  eexists. eexists. split; [vm_compute; discriminate|].
  split; [vm_compute; reflexivity|].
  eapply (startTime_fixed_over_runs
            "ssid" "pass" sampleColorTemperature sampleLux 1
            [dropLink; atMinute 3] syncedState tt);
    [vm_compute; discriminate | vm_compute; reflexivity].
Defined.

Lemma link_always_up_witness :
  let ds := [linkUpAtMinute 1; linkUpAtMinute 2] in
  Forall keepsLinkUp ds /\
  exists s' evs,
    sampleRun 0 ds (boot sampleEnv) = Some (tt, s', evs) /\
    countOf isWiFiBegin evs = 0 /\
    countOf isGetTime evs = 0 /\
    countOf isSetEpoch evs = 0 /\
    startTime (globals s') = startTime (globals (boot sampleEnv)).
Proof.
  cbv zeta.
  assert (Hds : Forall keepsLinkUp [linkUpAtMinute 1; linkUpAtMinute 2])
    by (repeat constructor).
  split; [exact Hds|].
  exact (link_always_up_never_syncs
           "ssid" "pass" sampleColorTemperature sampleLux 0
           [linkUpAtMinute 1; linkUpAtMinute 2] (boot sampleEnv) Hds).
Defined.


(** A clock set back behind [startTime]: the published uptime is near
    2^32. *)
Example uptime_wraps_when_clock_is_behind :
  option_map (fun r => nth 17 (snd r) MqttEndWill)
    (sampleReadSensor
       (mkState (mkGlobals "f54e3d2c1b0a" "light-client-home" 1700000000 0 3)
                (setClock 1699999990 sampleEnv)))
  = Some (MqttPrint "4294967286").
Proof. vm_compute. reflexivity. Qed.

Lemma device_identity_determines_mac_witness :
  exists s1 evs1 s2 evs2,
    List.length (macAddress sampleEnv) = 6%nat /\
    List.length (macAddress brokerDownEnv) = 6%nat /\
    sampleSetup (boot sampleEnv) = Some (tt, s1, evs1) /\
    sampleSetup (boot brokerDownEnv) = Some (tt, s2, evs2) /\
    addressString (globals s1) = addressString (globals s2) /\
    macAddress sampleEnv = macAddress brokerDownEnv.
Proof.
  eexists. eexists. eexists. eexists.
  split; [reflexivity|]. split; [reflexivity|].
  split; [vm_compute; reflexivity|]. split; [vm_compute; reflexivity|].
  split; [reflexivity|].
  eapply (device_identity_determines_mac
            "user" "secret" sampleEnv brokerDownEnv);
    try reflexivity; vm_compute; reflexivity.
Defined.

(** Addresses that differ in one bit give different identities. *)
Example other_mac_other_identity :
  option_map (fun r => addressString (globals (snd (fst r))))
             (sampleSetup (boot otherMacEnv)) = Some "f64e3d2c1b0a".
Proof. vm_compute. reflexivity. Qed.

Lemma publishes_are_whole_witness :
  exists s' evs,
    sampleRun 0 (map atMinute [1; 1; 2]) (boot sampleEnv) = Some (tt, s', evs) /\
    publishTriples (filter isPublishEvent evs) = true.
Proof.
  eexists. eexists. split; [vm_compute; reflexivity|].
  eapply (publishes_are_whole
            "ssid" "pass" sampleColorTemperature sampleLux 0
            (map atMinute [1; 1; 2]) (boot sampleEnv) tt).
  vm_compute; reflexivity.
Defined.

Lemma no_connect_attempt_witness :
  exists s' evs,
    sampleLoop 0 dueState = Some (tt, s', evs) /\
    brokerUp (env dueState) = true /\
    connectCount evs = 0 /\
    brokerUp (env s') = true /\
    connects (env s') = connects (env dueState).
Proof.
  eexists. eexists. split; [vm_compute; reflexivity|].
  split; [reflexivity|].
  eapply (no_connect_attempt_while_connected
            "ssid" "pass" sampleColorTemperature sampleLux 0 dueState tt);
    [vm_compute; reflexivity | reflexivity].
Defined.

Lemma setup_registers_will_witness :
  List.length (macAddress (env (boot sampleEnv))) = 6%nat /\
  exists s' pre,
    sampleSetup (boot sampleEnv) =
      Some (tt, s',
            pre ++ [MqttBeginWill willTopic
                      (Z.of_nat (String.length "sensor died")) true 1;
                    MqttPrint "sensor died"; MqttEndWill]) /\
    clientID (globals s')
      = (clientID (globals (boot sampleEnv)) ++ location)%string /\
    In (MqttSetId (clientID (globals s'))) pre /\
    In (MqttSetKeepAliveInterval (sendInterval * 2 * 60 * 1000)) pre /\
    connectCount pre = 0 /\
    filter isPublishEvent pre = [] /\
    env s' = env (boot sampleEnv) /\
    startTime (globals s') = startTime (globals (boot sampleEnv)) /\
    lastSendTime (globals s') = lastSendTime (globals (boot sampleEnv)) /\
    readingCount (globals s') = readingCount (globals (boot sampleEnv)).
Proof.
  split; [reflexivity|].
  exact (setup_registers_will_before_connecting
           "user" "secret" (boot sampleEnv) eq_refl).
Defined.

Lemma clientID_fixed_witness :
  List.length (macAddress sampleEnv) = 6%nat /\
  exists s evs,
    sampleSetup (boot sampleEnv) = Some (tt, s, evs) /\
    clientID (globals s) = "light-client-home" /\
    In (MqttSetId "light-client-home") evs /\
    (forall fuel ds u s' evs',
        sampleRun fuel ds s = Some (u, s', evs') ->
        clientID (globals s') = "light-client-home").
Proof.
  split; [reflexivity|].
  exact (clientID_fixed_by_setup
           "ssid" "pass" "user" "secret" sampleColorTemperature sampleLux
           sampleEnv eq_refl).
Defined.

Lemma seven_publishes_witness :
  exists s' evs,
    sampleRun 0 (map atMinute [1; 1; 2]) (boot sampleEnv) = Some (tt, s', evs) /\
    publishCount evs = 7 * countOf isSensorRead evs /\
    countOf isSensorRead evs
      <= Z.of_nat (List.length (map atMinute [1; 1; 2])).
Proof.
  eexists. eexists. split; [vm_compute; reflexivity|].
  eapply (seven_publishes_per_sensor_read
            "ssid" "pass" sampleColorTemperature sampleLux 0
            (map atMinute [1; 1; 2]) (boot sampleEnv) tt).
  vm_compute; reflexivity.
Defined.

Lemma refused_connection_witness :
  let ds := [linkUpAtMinute 1; linkUpAtMinute 2] in
  brokerRefuses (env (boot refusingEnv)) /\
  Forall keepsRefusing ds /\
  exists s' evs,
    sampleRun 0 ds (boot refusingEnv) = Some (tt, s', evs) /\
    connectCount evs = Z.of_nat (List.length ds) /\
    publishCount evs = 0 /\
    countOf isSensorRead evs = 0 /\
    readingCount (globals s') = readingCount (globals (boot refusingEnv)) /\
    lastSendTime (globals s') = lastSendTime (globals (boot refusingEnv)) /\
    brokerRefuses (env s').
Proof.
  cbv zeta.
  assert (Href : brokerRefuses (env (boot refusingEnv)))
    by (split; [reflexivity | intros k; reflexivity]).
  assert (Hk : forall m, keepsRefusing (linkUpAtMinute m))
    by (intros m e [Hb Hc];
        split; [reflexivity | split; [exact Hb | exact Hc]]).
  assert (Hds : Forall keepsRefusing [linkUpAtMinute 1; linkUpAtMinute 2])
    by (constructor; [apply Hk | constructor; [apply Hk | constructor]]).
  split; [exact Href|]. split; [exact Hds|].
  exact (refused_connection_is_retried_every_iteration
           "ssid" "pass" sampleColorTemperature sampleLux 0
           [linkUpAtMinute 1; linkUpAtMinute 2] (boot refusingEnv) Href Hds).
Defined.
